(** * Catkuro: the cat calorie calculator [catv1.py]

    A shallow embedding of the Streamlit script [src/catv1.py] and the
    properties of its calculation pipeline:
    RER -> activity multiplier -> DER -> intake comparison -> feeding plan,
    the session dictionary that carries the results from one tab to the
    next, and the report renderer.

    The script computes with Python [float]s.  The embedding is written once
    over an interface [Number] of the arithmetic the script uses and is read
    in three ways:
    - [binary64]: IEEE 754 double precision through Rocq's primitive floats,
      bit for bit what CPython computes for [+ - * /] and the comparisons;
    - [rational]: exact arithmetic on canonical rationals, for the identities
      that hold of the formulas but not of their rounded evaluation;
    - [real]: the real numbers, where [**] is the real power function.
    The power function [**] is not among the primitive float operations and
    has no rational counterpart; those two instances take it as an
    argument. *)

From Stdlib Require Import ZArith QArith Qcanon Qreals Reals Lra.
From Stdlib Require Import Floats Uint63 List Bool Lia.
Import ListNotations.

Set Implicit Arguments.

(** ** Numbers *)

Class Number (A : Type) : Type := {
  of_Z : Z -> A;            (* an [int] operand promoted to [float] *)
  lit  : Q -> A;            (* a decimal literal such as [0.75] *)
  add  : A -> A -> A;
  sub  : A -> A -> A;
  mul  : A -> A -> A;
  div  : A -> A -> A;       (* the quotient, for a divisor that is not zero *)
  opp  : A -> A;
  pow  : A -> A -> A;       (* [x ** y] *)
  ltb  : A -> A -> bool;
  leb  : A -> A -> bool;
  eqb  : A -> A -> bool
}.

Arguments of_Z {A _} _%_Z.
Arguments lit {A _} _%_Q.

(** What the guards of the script need of the order: a number above another
    is neither below nor equal to it. *)
Class NumberOrder (A : Type) {N : Number A} : Prop := {
  ltb_leb_false : forall x y : A, ltb x y = true -> leb y x = false;
  ltb_eqb_false : forall x y : A, ltb x y = true -> eqb y x = false
}.

(** *** IEEE 754 binary64 *)

(** [float(n)] for an [int] n with |n| < 2^63: the double nearest to n
    (n itself below 2^53).  Beyond that the machine integer wraps, where
    Python converts the integer itself or raises OverflowError; the script
    converts only its constants and the slider's value, 0 to 100, and the
    theorems on doubles that convert an integer bound it. *)
Definition float_of_Z (z : Z) : float :=
  match z with
  | Z0 => PrimFloat.of_uint63 (Uint63.of_Z 0)
  | Zpos _ => PrimFloat.of_uint63 (Uint63.of_Z z)
  | Zneg p => PrimFloat.opp (PrimFloat.of_uint63 (Uint63.of_Z (Zpos p)))
  end.

(** A decimal literal denotes the double nearest to it: the correctly rounded
    quotient of its numerator and denominator. *)
Definition float_of_Q (q : Q) : float :=
  PrimFloat.div (float_of_Z (Qnum q)) (float_of_Z (Zpos (Qden q))).

Definition binary64 (fpow : float -> float -> float) : Number float := {|
  of_Z := float_of_Z;
  lit  := float_of_Q;
  add  := PrimFloat.add;
  sub  := PrimFloat.sub;
  mul  := PrimFloat.mul;
  div  := PrimFloat.div;
  opp  := PrimFloat.opp;
  pow  := fpow;
  ltb  := PrimFloat.ltb;
  leb  := PrimFloat.leb;
  eqb  := PrimFloat.eqb
|}.

(** *** Exact rationals *)

Definition Qc_ltb (x y : Qc) : bool :=
  match (x ?= y)%Qc with Lt => true | _ => false end.

Definition Qc_leb (x y : Qc) : bool :=
  match (x ?= y)%Qc with Gt => false | _ => true end.

Definition rational (qpow : Qc -> Qc -> Qc) : Number Qc := {|
  of_Z := fun z => Q2Qc (inject_Z z);
  lit  := Q2Qc;
  add  := Qcplus;
  sub  := Qcminus;
  mul  := Qcmult;
  div  := Qcdiv;
  opp  := Qcopp;
  pow  := qpow;
  ltb  := Qc_ltb;
  leb  := Qc_leb;
  eqb  := Qc_eq_bool
|}.

(** *** Real numbers *)

Definition R_ltb (x y : R) : bool := if Rlt_dec x y then true else false.

Definition R_leb (x y : R) : bool := if Rle_dec x y then true else false.

Definition R_eqb (x y : R) : bool := if Req_dec_T x y then true else false.

Definition real : Number R := {|
  of_Z := IZR;
  lit  := Q2R;
  add  := Rplus;
  sub  := Rminus;
  mul  := Rmult;
  div  := Rdiv;
  opp  := Ropp;
  pow  := Rpower;
  ltb  := R_ltb;
  leb  := R_leb;
  eqb  := R_eqb
|}.

(** ** The session dictionary and the widgets *)

Inductive neuter_label : Type :=
| Neutered      (* "是" *)
| Intact        (* "否" *)
| UnknownLabel  (* the default of [cat_info.get('is_neutered', ...)] *).

Record cat_info (A : Type) : Type := {
  ci_weight      : A;
  ci_age_years   : Z;
  ci_age_months  : Z;
  ci_is_neutered : neuter_label;
  ci_bcs         : Z
}.

Record der_info (A : Type) : Type := {
  di_rer          : A;
  di_multiplier   : A;
  di_der          : A;
  di_water_intake : A
}.

Record intake_analysis (A : Type) : Type := {
  ia_dry_food_grams     : A;
  ia_dry_food_kcal      : A;
  ia_wet_food_grams     : A;
  ia_wet_food_kcal      : A;
  ia_total_intake       : A;
  ia_calorie_difference : A
}.

Record feeding_plan (A : Type) : Type := {
  fp_wet_food_percentage : Z;
  fp_required_dry_grams  : A;
  fp_required_wet_grams  : A
}.

(** [st.session_state]: a key is absent ([None]) or bound.  The script tests
    ['der' not in st.session_state or st.session_state.der is None], so the
    value bound to ['der'] is itself optional. *)
Record session_state (A : Type) : Type := {
  s_der             : option (option A);
  s_cat_info        : option (cat_info A);
  s_der_info        : option (der_info A);
  s_intake_analysis : option (intake_analysis A);
  s_feeding_plan    : option (feeding_plan A)
}.

Definition empty_session (A : Type) : session_state A :=
  {| s_der := None; s_cat_info := None; s_der_info := None;
     s_intake_analysis := None; s_feeding_plan := None |}.

(** The DER a later tab may use: the key is bound, and not to [None]. *)
Definition current_der (A : Type) (s : session_state A) : option A :=
  match s_der s with
  | Some (Some d) => Some d
  | _ => None
  end.

(** The values of the input widgets in one run of the script, and which
    button started the run. *)
Record widgets (A : Type) : Type := {
  weight                  : A;
  age_years               : Z;
  age_months_part         : Z;
  is_neutered             : bool;
  bcs                     : Z;
  is_pregnant             : bool;
  is_lactating            : bool;
  calc_der                : bool;     (* button, tab 1 *)
  dry_food_grams          : A;
  dry_food_kcal_per_1000g : A;
  wet_food_grams          : A;
  wet_food_kcal_per_100g  : A;
  analyze_intake          : bool;     (* button, tab 2 *)
  wet_food_percentage     : Z;
  generate_plan           : bool      (* button, tab 3 *)
}.

(** ** What a run shows on the page *)

(** The texts the script puts on the page, with the values they display.
    Headings, rules and captions without data are not recorded. *)
Inductive message (A : Type) : Type :=
| WeightMustBePositive                  (* line 15 *)
| AgeMustBePositive                     (* line 178 *)
| RerLine (rer : A)                     (* line 200 *)
| MultiplierLine (multiplier : A)       (* line 201 *)
| DerLine (der : A)                     (* line 202 *)
| DerExplained                          (* line 203 *)
| WaterMetric (der : A)                 (* line 207 *)
| ComputeDerFirst                       (* line 235 *)
| DryKcalLine (kcal : A)                (* line 253 *)
| WetKcalLine (kcal : A)                (* line 254 *)
| TotalIntakeLine (kcal : A)            (* line 255 *)
| RecommendedLine (der : A)             (* line 261 *)
| ActualLine (kcal : A)                 (* line 262 *)
| IntakeOver (excess : A)               (* line 265 *)
| IntakeOverAdvice                      (* line 266 *)
| IntakeUnder (shortfall : A)           (* line 268 *)
| IntakeUnderAdvice                     (* line 269 *)
| IntakeOnTarget                        (* line 272 *)
| PlanIntro                             (* line 277 *)
| PlanNeedsDer                          (* line 281 *)
| PlanNeedsDensity                      (* line 284 *)
| PlanGoal (der : A)                    (* line 306 *)
| DryGramsMetric (grams : A)            (* line 310 *)
| WetGramsMetric (grams : A)            (* line 312 *)
| PlanSplit (dry_pct wet_pct : Z)       (* line 314 *)
| ReportNeedsDer                        (* line 321 *)
| ReportCat (weight : A) (years months : Z) (bcs : Z)
            (neutered : neuter_label)   (* lines 330-335 *)
| ReportDer (der water : A)             (* lines 339-342 *)
| ReportIntake (total diff neg_diff : A) (* lines 347-351 *)
| ReportPlan (dry_pct wet_pct : Z) (dry_grams wet_grams : A)
                                        (* lines 356-360 *)
| FontMissing                           (* line 368 *)
| DownloadHint                          (* line 373 *).

Arguments WeightMustBePositive {A}.
Arguments AgeMustBePositive {A}.
Arguments DerExplained {A}.
Arguments ComputeDerFirst {A}.
Arguments IntakeOverAdvice {A}.
Arguments IntakeUnderAdvice {A}.
Arguments IntakeOnTarget {A}.
Arguments PlanIntro {A}.
Arguments PlanNeedsDer {A}.
Arguments PlanNeedsDensity {A}.
Arguments PlanSplit {A}.
Arguments ReportNeedsDer {A}.
Arguments FontMissing {A}.
Arguments DownloadHint {A}.

Record datetime : Type := {
  dt_year : Z; dt_month : Z; dt_day : Z;
  dt_hour : Z; dt_minute : Z; dt_second : Z
}.

(** The Streamlit calls of the script that show something. *)
Inductive ui_call (A : Type) : Type :=
| StError (m : message A)
| StWarning (m : message A)
| StInfo (m : message A)
| StSuccess (m : message A)
| StWrite (m : message A)
| StMetric (m : message A)
| StCaption (m : message A)
| StBalloons
| StDownloadButton (data : list Byte.byte) (file_date : datetime).

Arguments StBalloons {A}.
Arguments StDownloadButton {A}.

(** ** Scripts: session state, page output, [st.stop()] and exceptions *)

Inductive exn : Type :=
| ZeroDivisionError.

Inductive outcome (X : Type) : Type :=
| Done (x : X)          (* ran to its end *)
| Stopped               (* [st.stop()] ended the run *)
| Raised (e : exn).     (* an exception left the script *)

Arguments Stopped {X}.
Arguments Raised {X}.

Definition script (A X : Type) : Type :=
  session_state A -> outcome X * session_state A * list (ui_call A).

Definition ret {A X : Type} (x : X) : script A X :=
  fun s => (Done x, s, []).

Definition bind {A X Y : Type} (m : script A X) (f : X -> script A Y)
  : script A Y :=
  fun s =>
    match m s with
    | (Done x, s1, out1) =>
        match f x s1 with
        | (r, s2, out2) => (r, s2, out1 ++ out2)
        end
    | (Stopped, s1, out1) => (Stopped, s1, out1)
    | (Raised e, s1, out1) => (Raised e, s1, out1)
    end.

Declare Scope script_scope.
Delimit Scope script_scope with script.
Notation "x <- m ;; k" := (bind m (fun x => k))
  (at level 61, m at next level, right associativity) : script_scope.
Notation "m ;; k" := (bind m (fun _ => k))
  (at level 61, right associativity) : script_scope.
Open Scope script_scope.

Definition emit {A : Type} (c : ui_call A) : script A unit :=
  fun s => (Done tt, s, [c]).

Definition st_stop {A X : Type} : script A X :=
  fun s => (Stopped, s, []).

Definition raise {A X : Type} (e : exn) : script A X :=
  fun s => (Raised e, s, []).

Definition get_session {A : Type} : script A (session_state A) :=
  fun s => (Done s, s, []).

(** Assignments to and deletions from [st.session_state]. *)
Definition set_der {A : Type} (d : A) (s : session_state A) : session_state A :=
  {| s_der := Some (Some d); s_cat_info := s_cat_info s;
     s_der_info := s_der_info s; s_intake_analysis := s_intake_analysis s;
     s_feeding_plan := s_feeding_plan s |}.

Definition set_cat_info {A : Type} (c : cat_info A) (s : session_state A)
  : session_state A :=
  {| s_der := s_der s; s_cat_info := Some c;
     s_der_info := s_der_info s; s_intake_analysis := s_intake_analysis s;
     s_feeding_plan := s_feeding_plan s |}.

Definition set_der_info {A : Type} (d : der_info A) (s : session_state A)
  : session_state A :=
  {| s_der := s_der s; s_cat_info := s_cat_info s;
     s_der_info := Some d; s_intake_analysis := s_intake_analysis s;
     s_feeding_plan := s_feeding_plan s |}.

Definition set_intake_analysis {A : Type} (i : intake_analysis A)
  (s : session_state A) : session_state A :=
  {| s_der := s_der s; s_cat_info := s_cat_info s;
     s_der_info := s_der_info s; s_intake_analysis := Some i;
     s_feeding_plan := s_feeding_plan s |}.

Definition set_feeding_plan {A : Type} (p : feeding_plan A)
  (s : session_state A) : session_state A :=
  {| s_der := s_der s; s_cat_info := s_cat_info s;
     s_der_info := s_der_info s; s_intake_analysis := s_intake_analysis s;
     s_feeding_plan := Some p |}.

(** [if 'intake_analysis' in st.session_state: del ...]: nothing to do when
    the key is absent. *)
Definition del_intake_analysis {A : Type} (s : session_state A)
  : session_state A :=
  {| s_der := s_der s; s_cat_info := s_cat_info s;
     s_der_info := s_der_info s; s_intake_analysis := None;
     s_feeding_plan := s_feeding_plan s |}.

Definition del_feeding_plan {A : Type} (s : session_state A)
  : session_state A :=
  {| s_der := s_der s; s_cat_info := s_cat_info s;
     s_der_info := s_der_info s; s_intake_analysis := s_intake_analysis s;
     s_feeding_plan := None |}.

Definition update {A : Type} (f : session_state A -> session_state A)
  : script A unit :=
  fun s => (Done tt, f s, []).

(** ** The report image *)

Record font : Type := { font_size : Z }.

Definition color : Type := (Z * Z * Z)%type.

Inductive anchor : Type :=
| anchor_la     (* Pillow's default: left, ascender *)
| anchor_ms     (* middle, baseline *)
| anchor_rs.    (* right, baseline *)

(** The lines of the report, with the values they format. *)
Inductive report_text (A : Type) : Type :=
| TitleText
| CatHeader
| WeightText (weight : A)
| AgeText (years months : Z)
| BcsText (bcs : Z)
| NeuteredText (label : neuter_label)
| DerHeader
| DerText (der : A)
| WaterText (water : A)
| IntakeHeader
| TotalIntakeText (total : A)
| DifferenceText (diff : A)
| PlanHeader
| SplitText (dry_pct wet_pct : Z)
| DryGramsText (grams : A)
| WetGramsText (grams : A)
| TimestampText (now : datetime)
| FooterText.

Arguments TitleText {A}.
Arguments CatHeader {A}.
Arguments AgeText {A}.
Arguments BcsText {A}.
Arguments NeuteredText {A}.
Arguments DerHeader {A}.
Arguments IntakeHeader {A}.
Arguments PlanHeader {A}.
Arguments SplitText {A}.
Arguments TimestampText {A}.
Arguments FooterText {A}.

(** One [draw.text(xy, text, font=, fill=, anchor=)]. *)
Record draw_text (A : Type) : Type := {
  dt_xy     : Z * Z;
  dt_text   : report_text A;
  dt_font   : font;
  dt_fill   : color;
  dt_anchor : anchor
}.

Record image (A : Type) : Type := {
  im_size       : Z * Z;
  im_background : color;
  im_drawn      : list (draw_text A)
}.

(** What a run reads from outside the script: the file system, Pillow and
    the clock. *)
Record environment (A : Type) : Type := {
  font_exists : bool;                        (* os.path.exists("font.ttf") *)
  truetype    : Z -> option font;            (* ImageFont.truetype("font.ttf", size);
                                                [None] when it raises IOError *)
  png_save    : image A -> list Byte.byte;   (* image.save(buf, format='PNG') *)
  now         : datetime                     (* datetime.now() *)
}.

Inductive verdict : Type :=
| over_target
| under_target
| on_target.

Section Catv1.

Context {A : Type} {N : Number A}.

Local Open Scope Z_scope.

(** ** Energy model *)

(** [calculate_rer], lines 8-18.  [float(weight_kg)] leaves a float as it
    is. *)
Definition calculate_rer (weight_kg : A) : script A (option A) :=
  if leb weight_kg (of_Z 0) then
    emit (StError WeightMustBePositive);;
    ret None
  else
    ret (Some (mul (of_Z 70) (pow weight_kg (lit 0.75)))).

(** [get_activity_multiplier], lines 20-56. *)
Definition get_activity_multiplier (age_months : Z) (is_neutered : bool)
  (bcs : Z) (is_pregnant is_lactating : bool) : A :=
  let multiplier := lit 1.0 in
  if is_pregnant then lit 2.0
  else if is_lactating then lit 3.0
  else
    let multiplier :=
      if age_months <? 4 then lit 3.0
      else if (age_months >=? 4) && (age_months <=? 12) then lit 2.0
      else if (age_months >? 12) && (age_months <? 84) then
        if is_neutered then
          let multiplier := lit 1.2 in
          if bcs >? 5 then lit 0.8
          else if bcs <? 4 then lit 1.6
          else multiplier
        else
          let multiplier := lit 1.4 in
          if bcs >? 5 then lit 1.0
          else if bcs <? 4 then lit 1.8
          else multiplier
      else
        let multiplier := lit 1.0 in
        if bcs >? 5 then lit 0.8
        else if bcs <? 4 then lit 1.2
        else multiplier
    in
    multiplier.

(** [der = rer * multiplier], line 184. *)
Definition der_of (rer multiplier : A) : A := mul rer multiplier.

(** Python's [/] on floats raises on a zero divisor. *)
Definition truediv (x y : A) : script A A :=
  if eqb y (of_Z 0) then raise ZeroDivisionError else ret (div x y).

(** ** Tab 1: the daily energy requirement, lines 172-208 *)

Definition neuter_label_of (is_neutered : bool) : neuter_label :=
  if is_neutered then Neutered else Intact.

Definition tab1 (w : widgets A) : script A unit :=
  if calc_der w then
    let age := (age_years w * 12 + age_months_part w)%Z in
    if age <=? 0 then
      emit (StError AgeMustBePositive)
    else
      rer <- calculate_rer (weight w);;
      match rer with
      | Some rer =>
          let multiplier :=
            get_activity_multiplier age (is_neutered w) (bcs w)
              (is_pregnant w) (is_lactating w) in
          let der := der_of rer multiplier in
          update (set_der der);;
          update (set_cat_info
                    {| ci_weight := weight w;
                       ci_age_years := age_years w;
                       ci_age_months := age_months_part w;
                       ci_is_neutered := neuter_label_of (is_neutered w);
                       ci_bcs := bcs w |});;
          update (set_der_info
                    {| di_rer := rer; di_multiplier := multiplier;
                       di_der := der; di_water_intake := der |});;
          update del_intake_analysis;;
          update del_feeding_plan;;
          emit (StWrite (RerLine rer));;
          emit (StWrite (MultiplierLine multiplier));;
          emit (StSuccess (DerLine der));;
          emit (StInfo DerExplained);;
          emit (StMetric (WaterMetric der))
      | None => ret tt
      end
  else ret tt.

(** ** Tab 2: the intake analysis, lines 232-272 *)

(** The three-way test of lines 264-270. *)
Definition classify (calorie_difference : A) : verdict :=
  if ltb (of_Z 5) calorie_difference then over_target
  else if ltb calorie_difference (of_Z (-5)) then under_target
  else on_target.

(** The branches of lines 264-272. *)
Definition show_verdict (calorie_difference : A) : script A unit :=
  match classify calorie_difference with
  | over_target =>
      emit (StWarning (IntakeOver calorie_difference));;
      emit (StInfo IntakeOverAdvice)
  | under_target =>
      emit (StWarning (IntakeUnder (opp calorie_difference)));;
      emit (StInfo IntakeUnderAdvice)
  | on_target =>
      emit StBalloons;;
      emit (StSuccess IntakeOnTarget)
  end.

Definition tab2 (w : widgets A) : script A unit :=
  if analyze_intake w then
    s <- get_session;;
    match current_der s with
    | None =>
        emit (StError ComputeDerFirst);;
        st_stop
    | Some der =>
        dry_per_kg <- truediv (dry_food_grams w) (lit 1000.0);;
        let dry_food_calories := mul dry_per_kg (dry_food_kcal_per_1000g w) in
        wet_per_100g <- truediv (wet_food_grams w) (lit 100.0);;
        let wet_food_calories := mul wet_per_100g (wet_food_kcal_per_100g w) in
        let total_intake := add dry_food_calories wet_food_calories in
        let calorie_difference := sub total_intake der in
        update (set_intake_analysis
                  {| ia_dry_food_grams := dry_food_grams w;
                     ia_dry_food_kcal := dry_food_calories;
                     ia_wet_food_grams := wet_food_grams w;
                     ia_wet_food_kcal := wet_food_calories;
                     ia_total_intake := total_intake;
                     ia_calorie_difference := calorie_difference |});;
        emit (StWrite (DryKcalLine dry_food_calories));;
        emit (StWrite (WetKcalLine wet_food_calories));;
        emit (StSuccess (TotalIntakeLine total_intake));;
        emit (StWrite (RecommendedLine der));;
        emit (StWrite (ActualLine total_intake));;
        show_verdict calorie_difference
    end
  else ret tt.

(** ** Tab 3: the feeding plan, lines 275-314 *)

Definition tab3 (w : widgets A) : script A unit :=
  emit (StInfo PlanIntro);;
  s <- get_session;;
  match current_der s with
  | None => emit (StWarning PlanNeedsDer)
  | Some der =>
      if eqb (dry_food_kcal_per_1000g w) (of_Z 0)
         && eqb (wet_food_kcal_per_100g w) (of_Z 0)
      then emit (StWarning PlanNeedsDensity)
      else if generate_plan w then
        wet_share <- truediv (of_Z (wet_food_percentage w)) (lit 100.0);;
        let target_wet_calories := mul der wet_share in
        dry_share <- truediv (of_Z (100 - wet_food_percentage w)) (lit 100.0);;
        let target_dry_calories := mul der dry_share in
        required_dry_grams <-
          (if ltb (of_Z 0) (dry_food_kcal_per_1000g w) then
             q <- truediv target_dry_calories (dry_food_kcal_per_1000g w);;
             ret (mul q (lit 1000.0))
           else ret (of_Z 0));;
        required_wet_grams <-
          (if ltb (of_Z 0) (wet_food_kcal_per_100g w) then
             q <- truediv target_wet_calories (wet_food_kcal_per_100g w);;
             ret (mul q (lit 100.0))
           else ret (of_Z 0));;
        update (set_feeding_plan
                  {| fp_wet_food_percentage := wet_food_percentage w;
                     fp_required_dry_grams := required_dry_grams;
                     fp_required_wet_grams := required_wet_grams |});;
        emit (StInfo (PlanGoal der));;
        emit (StMetric (DryGramsMetric required_dry_grams));;
        emit (StMetric (WetGramsMetric required_wet_grams));;
        emit (StCaption (PlanSplit (100 - wet_food_percentage w)
                           (wet_food_percentage w)))
      else ret tt
  end.

(** ** The report renderer, lines 58-127 *)

(** [d.get(key, default)] on a dictionary that is empty ([None]) or has all
    its keys. *)
Definition dict_get {R V : Type} (d : option R) (key : R -> V) (default : V)
  : V :=
  match d with
  | Some r => key r
  | None => default
  end.

(** The drawing position [y_pos] and what has been drawn so far. *)
Definition pen : Type := (Z * list (draw_text A))%type.

Definition move_down (dy : Z) (p : pen) : pen := (fst p + dy, snd p).

Definition text_at (x : Z) (t : report_text A) (f : font) (c : color)
  (p : pen) : pen :=
  (fst p,
   snd p ++ [{| dt_xy := (x, fst p); dt_text := t; dt_font := f;
                dt_fill := c; dt_anchor := anchor_la |}]).

Definition generate_diet_report_image (e : environment A)
  (cat : option (cat_info A)) (der : option (der_info A))
  (intake_analysis : option (intake_analysis A))
  (feeding_plan : option (feeding_plan A)) : option (list Byte.byte) :=
  let width := 800 in
  let height := 800 in
  let bg_color : color := (255, 255, 248) in
  let text_color : color := (40, 40, 40) in
  let header_color : color := (0, 0, 0) in
  let accent_color : color := (70, 130, 180) in
  match truetype e 48, truetype e 32, truetype e 24, truetype e 16 with
  | Some title_font, Some header_font, Some body_font, Some caption_font =>
      let title :=
        {| dt_xy := (width / 2, 50); dt_text := TitleText;
           dt_font := title_font; dt_fill := header_color;
           dt_anchor := anchor_ms |} in
      let p : pen := (120, [title]) in
      let p := text_at 50 CatHeader header_font accent_color p in
      let p := move_down 50 p in
      let p := text_at 80 (WeightText (dict_get cat (@ci_weight A) (of_Z 0)))
                 body_font text_color p in
      let p := text_at 400 (AgeText (dict_get cat (@ci_age_years A) 0)
                              (dict_get cat (@ci_age_months A) 0))
                 body_font text_color p in
      let p := move_down 40 p in
      let p := text_at 80 (BcsText (dict_get cat (@ci_bcs A) 0))
                 body_font text_color p in
      let p := text_at 400
                 (NeuteredText (dict_get cat (@ci_is_neutered A) UnknownLabel))
                 body_font text_color p in
      let p := move_down 80 p in
      let p := text_at 50 DerHeader header_font accent_color p in
      let p := move_down 50 p in
      let p := text_at 80 (DerText (dict_get der (@di_der A) (of_Z 0)))
                 body_font text_color p in
      let p := move_down 40 p in
      let p := text_at 80
                 (WaterText (dict_get der (@di_water_intake A) (of_Z 0)))
                 body_font text_color p in
      let p :=
        match intake_analysis with
        | Some ia =>
            let p := move_down 80 p in
            let p := text_at 50 IntakeHeader header_font accent_color p in
            let p := move_down 50 p in
            let p := text_at 80 (TotalIntakeText (ia_total_intake ia))
                       body_font text_color p in
            let p := move_down 40 p in
            let diff := ia_calorie_difference ia in
            text_at 80 (DifferenceText diff) body_font text_color p
        | None => p
        end in
      let p :=
        match feeding_plan with
        | Some fp =>
            let p := move_down 80 p in
            let p := text_at 50 PlanHeader header_font accent_color p in
            let p := move_down 40 p in
            let p := text_at 80
                       (SplitText (100 - fp_wet_food_percentage fp)
                          (fp_wet_food_percentage fp))
                       caption_font text_color p in
            let p := move_down 30 p in
            let p := text_at 80 (DryGramsText (fp_required_dry_grams fp))
                       body_font text_color p in
            let p := move_down 40 p in
            text_at 80 (WetGramsText (fp_required_wet_grams fp))
              body_font text_color p
        | None => p
        end in
      let timestamp := now e in
      let footer :=
        [{| dt_xy := (50, height - 40); dt_text := TimestampText timestamp;
            dt_font := caption_font; dt_fill := text_color;
            dt_anchor := anchor_la |};
         {| dt_xy := (width - 50, height - 40); dt_text := FooterText;
            dt_font := caption_font; dt_fill := text_color;
            dt_anchor := anchor_rs |}] in
      Some (png_save e {| im_size := (width, height);
                          im_background := bg_color;
                          im_drawn := snd p ++ footer |})
  | _, _, _, _ => None      (* except IOError: return None *)
  end.

(** ** Tab 4: the report overview and the download, lines 317-382 *)

Definition tab4 (e : environment A) : script A unit :=
  s <- get_session;;
  match s_der_info s with
  | None => emit (StInfo ReportNeedsDer)
  | Some _ =>
      let cat := s_cat_info s in
      let der := s_der_info s in
      let intake_analysis := s_intake_analysis s in
      let feeding_plan := s_feeding_plan s in
      emit (StMetric (ReportCat (dict_get cat (@ci_weight A) (of_Z 0))
                        (dict_get cat (@ci_age_years A) 0)
                        (dict_get cat (@ci_age_months A) 0)
                        (dict_get cat (@ci_bcs A) 0)
                        (dict_get cat (@ci_is_neutered A) UnknownLabel)));;
      emit (StMetric (ReportDer (dict_get der (@di_der A) (of_Z 0))
                        (dict_get der (@di_water_intake A) (of_Z 0))));;
      match intake_analysis with
      | Some ia =>
          let diff := ia_calorie_difference ia in
          emit (StMetric (ReportIntake (ia_total_intake ia) diff (opp diff)))
      | None => ret tt
      end;;
      match feeding_plan with
      | Some fp =>
          emit (StMetric (ReportPlan (100 - fp_wet_food_percentage fp)
                            (fp_wet_food_percentage fp)
                            (fp_required_dry_grams fp)
                            (fp_required_wet_grams fp)))
      | None => ret tt
      end;;
      if negb (font_exists e) then
        emit (StError FontMissing)
      else
        emit (StInfo DownloadHint);;
        let image_bytes :=
          generate_diet_report_image e cat der intake_analysis feeding_plan in
        match image_bytes with
        | Some (b :: bs) => emit (StDownloadButton (b :: bs) (now e))
        | Some [] | None => ret tt      (* [if image_bytes:] is false *)
        end
  end.

(** ** One run of the script: the four tabs in order, lines 129-382 *)

Definition main (e : environment A) (w : widgets A) : script A unit :=
  tab1 w;;
  tab2 w;;
  tab3 w;;
  tab4 e.

(** The session after a run, and what the run showed. *)
Definition session_after {X : Type} (m : script A X) (s : session_state A)
  : session_state A :=
  snd (fst (m s)).

Definition shown_by {X : Type} (m : script A X) (s : session_state A)
  : list (ui_call A) :=
  snd (m s).

Definition outcome_of {X : Type} (m : script A X) (s : session_state A)
  : outcome X :=
  fst (fst (m s)).

End Catv1.

(** ** The specification's tables and formulas

    Written from the specification's words, to be compared with the code
    above. *)

Section Specification.

Context {A : Type} {N : Number A}.

Local Open Scope Z_scope.

(** "base ..., but ... if bcs > 5, else ... if bcs < 4". *)
Definition bcs_adjusted (base overweight underweight : A) (bcs : Z) : A :=
  if 5 <? bcs then overweight
  else if bcs <? 4 then underweight
  else base.

(** The decision table of the activity multiplier, one row per line of the
    specification; [None] where no row applies. *)
Definition activity_multiplier_table (ageMonths : Z) (neutered : bool)
  (bcs : Z) (pregnant lactating : bool) : option A :=
  if pregnant then Some (lit 2.0)
  else if lactating then Some (lit 3.0)
  else if ageMonths <? 4 then Some (lit 3.0)
  else if (4 <=? ageMonths) && (ageMonths <=? 12) then Some (lit 2.0)
  else if (13 <=? ageMonths) && (ageMonths <=? 83) then
    Some (if neutered
          then bcs_adjusted (lit 1.2) (lit 0.8) (lit 1.6) bcs
          else bcs_adjusted (lit 1.4) (lit 1.0) (lit 1.8) bcs)
  else if 84 <=? ageMonths then
    Some (bcs_adjusted (lit 1.0) (lit 0.8) (lit 1.2) bcs)
  else None.

(** The base value of each age bracket, before any BCS adjustment. *)
Definition base_multiplier (ageMonths : Z) (neutered : bool) : A :=
  if ageMonths <? 4 then lit 3.0
  else if ageMonths <=? 12 then lit 2.0
  else if ageMonths <=? 83 then (if neutered then lit 1.2 else lit 1.4)
  else lit 1.0.

(** [analyzeIntake(der, food)]. *)
Definition intake_as_specified (der dry_grams dry_kcal_per_1000g
                                  wet_grams wet_kcal_per_100g : A)
  : intake_analysis A :=
  let dryKcal := mul (div dry_grams (of_Z 1000)) dry_kcal_per_1000g in
  let wetKcal := mul (div wet_grams (of_Z 100)) wet_kcal_per_100g in
  let totalKcal := add dryKcal wetKcal in
  {| ia_dry_food_grams := dry_grams;
     ia_dry_food_kcal := dryKcal;
     ia_wet_food_grams := wet_grams;
     ia_wet_food_kcal := wetKcal;
     ia_total_intake := totalKcal;
     ia_calorie_difference := sub totalKcal der |}.

(** [planFeeding(der, wetPercentage, dryKcalPer1000g, wetKcalPer100g)]. *)
Definition plan_as_specified (der : A) (wetPercentage : Z)
  (dryKcalPer1000g wetKcalPer100g : A) : feeding_plan A :=
  let targetWetKcal := mul der (div (of_Z wetPercentage) (of_Z 100)) in
  let targetDryKcal :=
    mul der (div (of_Z (100 - wetPercentage)) (of_Z 100)) in
  {| fp_wet_food_percentage := wetPercentage;
     fp_required_dry_grams :=
       if ltb (of_Z 0) dryKcalPer1000g
       then mul (div targetDryKcal dryKcalPer1000g) (of_Z 1000)
       else of_Z 0;
     fp_required_wet_grams :=
       if ltb (of_Z 0) wetKcalPer100g
       then mul (div targetWetKcal wetKcalPer100g) (of_Z 100)
       else of_Z 0 |}.

(** What tab 3 shows once a plan is made. *)
Definition plan_shown (der : A) (p : feeding_plan A) : list (ui_call A) :=
  [StInfo PlanIntro;
   StInfo (PlanGoal der);
   StMetric (DryGramsMetric (fp_required_dry_grams p));
   StMetric (WetGramsMetric (fp_required_wet_grams p));
   StCaption (PlanSplit (100 - fp_wet_food_percentage p)
                (fp_wet_food_percentage p))].

(** What tab 2 shows for a verdict. *)
Definition verdict_shown (v : verdict) (calorie_difference : A)
  : list (ui_call A) :=
  match v with
  | over_target =>
      [StWarning (IntakeOver calorie_difference); StInfo IntakeOverAdvice]
  | under_target =>
      [StWarning (IntakeUnder (opp calorie_difference));
       StInfo IntakeUnderAdvice]
  | on_target => [StBalloons; StSuccess IntakeOnTarget]
  end.

(** What tab 2 shows once an intake is analysed. *)
Definition intake_shown (der : A) (i : intake_analysis A)
  : list (ui_call A) :=
  [StWrite (DryKcalLine (ia_dry_food_kcal i));
   StWrite (WetKcalLine (ia_wet_food_kcal i));
   StSuccess (TotalIntakeLine (ia_total_intake i));
   StWrite (RecommendedLine der);
   StWrite (ActualLine (ia_total_intake i))]
  ++ verdict_shown (classify (ia_calorie_difference i))
       (ia_calorie_difference i).

(** The energy result tab 1 computes from the widgets: lines 174-194. *)
Definition age_months_of (w : widgets A) : Z :=
  age_years w * 12 + age_months_part w.

Definition energy_result (w : widgets A) : der_info A :=
  let rer := mul (of_Z 70) (pow (weight w) (lit 0.75)) in
  let multiplier :=
    get_activity_multiplier (age_months_of w) (is_neutered w) (bcs w)
      (is_pregnant w) (is_lactating w) in
  {| di_rer := rer; di_multiplier := multiplier;
     di_der := mul rer multiplier; di_water_intake := mul rer multiplier |}.

Definition cat_of (w : widgets A) : cat_info A :=
  {| ci_weight := weight w;
     ci_age_years := age_years w;
     ci_age_months := age_months_part w;
     ci_is_neutered := neuter_label_of (is_neutered w);
     ci_bcs := bcs w |}.

(** The session after a successful tab 1: the new energy result, and no
    intake analysis or feeding plan. *)
Definition session_with_energy (w : widgets A) : session_state A :=
  {| s_der := Some (Some (di_der (energy_result w)));
     s_cat_info := Some (cat_of w);
     s_der_info := Some (energy_result w);
     s_intake_analysis := None;
     s_feeding_plan := None |}.

Definition energy_shown (e : der_info A) : list (ui_call A) :=
  [StWrite (RerLine (di_rer e));
   StWrite (MultiplierLine (di_multiplier e));
   StSuccess (DerLine (di_der e));
   StInfo DerExplained;
   StMetric (WaterMetric (di_der e))].

(** The sections of the report overview of tab 4, lines 329-360. *)
Definition report_overview (s : session_state A) : list (ui_call A) :=
  [StMetric (ReportCat (dict_get (s_cat_info s) (@ci_weight A) (of_Z 0))
               (dict_get (s_cat_info s) (@ci_age_years A) 0)
               (dict_get (s_cat_info s) (@ci_age_months A) 0)
               (dict_get (s_cat_info s) (@ci_bcs A) 0)
               (dict_get (s_cat_info s) (@ci_is_neutered A) UnknownLabel));
   StMetric (ReportDer (dict_get (s_der_info s) (@di_der A) (of_Z 0))
               (dict_get (s_der_info s) (@di_water_intake A) (of_Z 0)))]
  ++ match s_intake_analysis s with
     | Some ia =>
         [StMetric (ReportIntake (ia_total_intake ia)
                      (ia_calorie_difference ia)
                      (opp (ia_calorie_difference ia)))]
     | None => []
     end
  ++ match s_feeding_plan s with
     | Some fp =>
         [StMetric (ReportPlan (100 - fp_wet_food_percentage fp)
                      (fp_wet_food_percentage fp)
                      (fp_required_dry_grams fp)
                      (fp_required_wet_grams fp))]
     | None => []
     end.

(** A download button among the calls of a run. *)
Definition is_download (c : ui_call A) : bool :=
  match c with
  | StDownloadButton _ _ => true
  | _ => false
  end.

(** All four sizes of the font load. *)
Definition fonts_load (e : environment A) : bool :=
  match truetype e 48, truetype e 32, truetype e 24, truetype e 16 with
  | Some _, Some _, Some _, Some _ => true
  | _, _, _, _ => false
  end.

(** The download button of tab 4: shown when the renderer returns bytes and
    they are not empty. *)
Definition download_shown (e : environment A) (s : session_state A)
  : list (ui_call A) :=
  match generate_diet_report_image e (s_cat_info s) (s_der_info s)
          (s_intake_analysis s) (s_feeding_plan s) with
  | Some (b :: bs) => [StDownloadButton (b :: bs) (now e)]
  | _ => []
  end.

(** The widgets as the page first shows them (the [value=] of each input,
    the first radio option, the minimum of an input without a value), with
    no button clicked. *)
Definition default_widgets : widgets A :=
  {| weight := lit 4.0;
     age_years := 2;
     age_months_part := 0;
     is_neutered := true;
     bcs := 5;
     is_pregnant := false;
     is_lactating := false;
     calc_der := false;
     dry_food_grams := lit 0.0;
     dry_food_kcal_per_1000g := lit 0.0;
     wet_food_grams := lit 0.0;
     wet_food_kcal_per_100g := lit 0.0;
     analyze_intake := false;
     wet_food_percentage := 50;
     generate_plan := false |}.

(** The user fills in the food inputs of tab 2. *)
Definition with_food (dry_grams dry_kcal wet_grams wet_kcal : A)
  (w : widgets A) : widgets A :=
  {| weight := weight w;
     age_years := age_years w;
     age_months_part := age_months_part w;
     is_neutered := is_neutered w;
     bcs := bcs w;
     is_pregnant := is_pregnant w;
     is_lactating := is_lactating w;
     calc_der := calc_der w;
     dry_food_grams := dry_grams;
     dry_food_kcal_per_1000g := dry_kcal;
     wet_food_grams := wet_grams;
     wet_food_kcal_per_100g := wet_kcal;
     analyze_intake := analyze_intake w;
     wet_food_percentage := wet_food_percentage w;
     generate_plan := generate_plan w |}.

(** The user fills in the cat's data of tab 1. *)
Definition with_cat (weight_kg : A) (years months : Z) (neutered : bool)
  (score : Z) (pregnant lactating : bool) (w : widgets A) : widgets A :=
  {| weight := weight_kg;
     age_years := years;
     age_months_part := months;
     is_neutered := neutered;
     bcs := score;
     is_pregnant := pregnant;
     is_lactating := lactating;
     calc_der := calc_der w;
     dry_food_grams := dry_food_grams w;
     dry_food_kcal_per_1000g := dry_food_kcal_per_1000g w;
     wet_food_grams := wet_food_grams w;
     wet_food_kcal_per_100g := wet_food_kcal_per_100g w;
     analyze_intake := analyze_intake w;
     wet_food_percentage := wet_food_percentage w;
     generate_plan := generate_plan w |}.

(** The user moves the slider of tab 3. *)
Definition with_wet_percentage (pct : Z) (w : widgets A) : widgets A :=
  {| weight := weight w;
     age_years := age_years w;
     age_months_part := age_months_part w;
     is_neutered := is_neutered w;
     bcs := bcs w;
     is_pregnant := is_pregnant w;
     is_lactating := is_lactating w;
     calc_der := calc_der w;
     dry_food_grams := dry_food_grams w;
     dry_food_kcal_per_1000g := dry_food_kcal_per_1000g w;
     wet_food_grams := wet_food_grams w;
     wet_food_kcal_per_100g := wet_food_kcal_per_100g w;
     analyze_intake := analyze_intake w;
     wet_food_percentage := pct;
     generate_plan := generate_plan w |}.

(** The user clicks one of the three buttons. *)
Definition click_calc_der (w : widgets A) : widgets A :=
  {| weight := weight w;
     age_years := age_years w;
     age_months_part := age_months_part w;
     is_neutered := is_neutered w;
     bcs := bcs w;
     is_pregnant := is_pregnant w;
     is_lactating := is_lactating w;
     calc_der := true;
     dry_food_grams := dry_food_grams w;
     dry_food_kcal_per_1000g := dry_food_kcal_per_1000g w;
     wet_food_grams := wet_food_grams w;
     wet_food_kcal_per_100g := wet_food_kcal_per_100g w;
     analyze_intake := false;
     wet_food_percentage := wet_food_percentage w;
     generate_plan := false |}.

Definition click_analyze_intake (w : widgets A) : widgets A :=
  {| weight := weight w;
     age_years := age_years w;
     age_months_part := age_months_part w;
     is_neutered := is_neutered w;
     bcs := bcs w;
     is_pregnant := is_pregnant w;
     is_lactating := is_lactating w;
     calc_der := false;
     dry_food_grams := dry_food_grams w;
     dry_food_kcal_per_1000g := dry_food_kcal_per_1000g w;
     wet_food_grams := wet_food_grams w;
     wet_food_kcal_per_100g := wet_food_kcal_per_100g w;
     analyze_intake := true;
     wet_food_percentage := wet_food_percentage w;
     generate_plan := false |}.

Definition click_generate_plan (w : widgets A) : widgets A :=
  {| weight := weight w;
     age_years := age_years w;
     age_months_part := age_months_part w;
     is_neutered := is_neutered w;
     bcs := bcs w;
     is_pregnant := is_pregnant w;
     is_lactating := is_lactating w;
     calc_der := false;
     dry_food_grams := dry_food_grams w;
     dry_food_kcal_per_1000g := dry_food_kcal_per_1000g w;
     wet_food_grams := wet_food_grams w;
     wet_food_kcal_per_100g := wet_food_kcal_per_100g w;
     analyze_intake := false;
     wet_food_percentage := wet_food_percentage w;
     generate_plan := true |}.

(** The widgets of a later run in which the owner feeds what the plan
    [p] recommends, of the same two foods, and asks for the analysis. *)
Definition feed_plan (w : widgets A) (p : feeding_plan A) : widgets A :=
  click_analyze_intake
    (with_food (fp_required_dry_grams p) (dry_food_kcal_per_1000g w)
       (fp_required_wet_grams p) (wet_food_kcal_per_100g w) w).

(** A session in which tab 1 has stored the DER [d] and nothing else is
    looked at. *)
Definition session_with_der (d : A) : session_state A :=
  set_der d (empty_session A).

(** The sessions a user can be in: the empty one, and the one any run of
    the script leaves, whatever the widgets and the environment. *)
Inductive reachable : session_state A -> Prop :=
| reachable_empty : reachable (empty_session A)
| reachable_run (e : environment A) (w : widgets A) (s : session_state A) :
    reachable s -> reachable (session_after (main e w) s).

(** The stored energy result is a product and is the DER in use. *)
Definition energy_consistent (s : session_state A) : Prop :=
  forall e : der_info A,
    s_der_info s = Some e ->
    di_der e = mul (di_rer e) (di_multiplier e)
    /\ di_water_intake e = di_der e
    /\ s_der s = Some (Some (di_der e)).

(** A stored intake analysis or feeding plan is one the specified formulas
    give for the DER the session holds now and some caloric densities.  (The
    stored records do not keep the densities, so this does not tell a plan
    from the plan of another DER at other densities; that a plan or an
    analysis is absent after a recomputation until it is asked for again is
    proved over histories of runs.) *)
Definition nothing_stale (s : session_state A) : Prop :=
  (forall i : intake_analysis A,
      s_intake_analysis s = Some i ->
      exists der dry_kcal_per_1000g wet_kcal_per_100g,
        current_der s = Some der
        /\ i = intake_as_specified der (ia_dry_food_grams i)
                 dry_kcal_per_1000g (ia_wet_food_grams i) wet_kcal_per_100g)
  /\ (forall p : feeding_plan A,
         s_feeding_plan s = Some p ->
         exists der dry_kcal_per_1000g wet_kcal_per_100g,
           current_der s = Some der
           /\ p = plan_as_specified der (fp_wet_food_percentage p)
                    dry_kcal_per_1000g wet_kcal_per_100g).

End Specification.

(** ** Closed instances for running the script *)

(** A stand-in for the C library's [pow] at the one exponent the script
    uses: x^0.75 as [sqrt x * sqrt (sqrt x)], rounded at each step, so it can
    differ from the library's result in the last bits.  It serves to run the
    script on concrete inputs; the theorems hold for every power function. *)
Definition sqrt_pow (x y : float) : float :=
  if PrimFloat.eqb y 0.75%float
  then PrimFloat.mul (PrimFloat.sqrt x) (PrimFloat.sqrt (PrimFloat.sqrt x))
  else PrimFloat.nan.

Definition py_float : Number float := binary64 sqrt_pow.

(** No rational power exists at exponent 0.75; the exact instance leaves
    [**] undefined (zero) and is used where the script does not call it. *)
Definition exact : Number Qc := rational (fun _ _ => Q2Qc 0).

(** ** Concrete runs *)

(** An environment in which the font file is present and loads at every
    size, with a stand-in encoder that writes the eight bytes of the PNG
    signature. *)
Definition png_signature : list Byte.byte :=
  [Byte.x89; Byte.x50; Byte.x4e; Byte.x47;
   Byte.x0d; Byte.x0a; Byte.x1a; Byte.x0a].

Definition noon : datetime :=
  {| dt_year := 2025; dt_month := 6; dt_day := 1;
     dt_hour := 12; dt_minute := 0; dt_second := 0 |}.

Definition environment_with_font (A : Type) : environment A :=
  {| font_exists := true;
     truetype := fun size => Some {| font_size := size |};
     png_save := fun _ => png_signature;
     now := noon |}.

(** An environment without the font file. *)
Definition environment_without_font (A : Type) : environment A :=
  {| font_exists := false;
     truetype := fun _ => None;
     png_save := fun _ => png_signature;
     now := noon |}.

(** The feeding plan asked for with no caloric density entered: a DER of
    300 kcal in the session, the slider at its default of 50 %, both
    densities at their default of zero. *)
Definition widgets_without_density : widgets float :=
  click_generate_plan (default_widgets (N := py_float)).

(** The feeding plan of the specification's example: 4000 kcal per 1000 g
    of dry food, 100 kcal per 100 g of wet food, the slider at 50 %. *)
Definition widgets_for_plan : widgets float :=
  click_generate_plan
    (with_food 0%float 4000%float 0%float 100%float
       (default_widgets (N := py_float))).

(** The intake of the specification's example: 50 g of dry food at
    3500 kcal per 1000 g and 100 g of wet food at 90 kcal per 100 g. *)
Definition widgets_for_intake : widgets float :=
  click_analyze_intake
    (with_food 50%float 3500%float 100%float 90%float
       (default_widgets (N := py_float))).

(** A plan whose round trip through the analysis rounds in double
    precision: a DER of 250 kcal, 70 % wet food, 3500 kcal per 1000 g of
    dry food and 90 kcal per 100 g of wet food. *)
Definition widgets_for_rounding : widgets float :=
  click_generate_plan
    (with_wet_percentage 70
       (with_food 0%float 3500%float 0%float 90%float
          (default_widgets (N := py_float)))).

(** A plan with wet food only: no caloric density for the dry food. *)
Definition widgets_wet_only : widgets float :=
  click_generate_plan
    (with_food 0%float 0%float 0%float 100%float
       (default_widgets (N := py_float))).

(** A plan with dry food only: no caloric density for the wet food. *)
Definition widgets_dry_only : widgets float :=
  click_generate_plan
    (with_food 0%float 4000%float 0%float 0%float
       (default_widgets (N := py_float))).

(** The same plan in exact arithmetic. *)
Definition exact_widgets_for_plan : widgets Qc :=
  click_generate_plan
    (with_food (Q2Qc 0) (Q2Qc 4000) (Q2Qc 0) (Q2Qc 100)
       (default_widgets (N := exact))).

(** ** The drawing of the report and the ranges of the widgets *)

Section Drawing.

Context {A : Type} {N : Number A}.

Local Open Scope Z_scope.

(** The [draw.text] calls of the renderer, lines 79-123, in the order they
    are made, for the four fonts loaded at lines 70-73 and the time read at
    line 121. *)
Definition report_lines (title_font header_font body_font caption_font : font)
  (timestamp : datetime)
  (cat : option (cat_info A)) (der : option (der_info A))
  (intake_analysis : option (intake_analysis A))
  (feeding_plan : option (feeding_plan A)) : list (draw_text A) :=
  let width := 800 in
  let height := 800 in
  let text_color : color := (40, 40, 40) in
  let header_color : color := (0, 0, 0) in
  let accent_color : color := (70, 130, 180) in
  let title :=
    {| dt_xy := (width / 2, 50); dt_text := TitleText;
       dt_font := title_font; dt_fill := header_color;
       dt_anchor := anchor_ms |} in
  let p : pen := (120, [title]) in
  let p := text_at 50 CatHeader header_font accent_color p in
  let p := move_down 50 p in
  let p := text_at 80 (WeightText (dict_get cat (@ci_weight A) (of_Z 0)))
             body_font text_color p in
  let p := text_at 400 (AgeText (dict_get cat (@ci_age_years A) 0)
                          (dict_get cat (@ci_age_months A) 0))
             body_font text_color p in
  let p := move_down 40 p in
  let p := text_at 80 (BcsText (dict_get cat (@ci_bcs A) 0))
             body_font text_color p in
  let p := text_at 400
             (NeuteredText (dict_get cat (@ci_is_neutered A) UnknownLabel))
             body_font text_color p in
  let p := move_down 80 p in
  let p := text_at 50 DerHeader header_font accent_color p in
  let p := move_down 50 p in
  let p := text_at 80 (DerText (dict_get der (@di_der A) (of_Z 0)))
             body_font text_color p in
  let p := move_down 40 p in
  let p := text_at 80
             (WaterText (dict_get der (@di_water_intake A) (of_Z 0)))
             body_font text_color p in
  let p :=
    match intake_analysis with
    | Some ia =>
        let p := move_down 80 p in
        let p := text_at 50 IntakeHeader header_font accent_color p in
        let p := move_down 50 p in
        let p := text_at 80 (TotalIntakeText (ia_total_intake ia))
                   body_font text_color p in
        let p := move_down 40 p in
        text_at 80 (DifferenceText (ia_calorie_difference ia))
          body_font text_color p
    | None => p
    end in
  let p :=
    match feeding_plan with
    | Some fp =>
        let p := move_down 80 p in
        let p := text_at 50 PlanHeader header_font accent_color p in
        let p := move_down 40 p in
        let p := text_at 80
                   (SplitText (100 - fp_wet_food_percentage fp)
                      (fp_wet_food_percentage fp))
                   caption_font text_color p in
        let p := move_down 30 p in
        let p := text_at 80 (DryGramsText (fp_required_dry_grams fp))
                   body_font text_color p in
        let p := move_down 40 p in
        text_at 80 (WetGramsText (fp_required_wet_grams fp))
          body_font text_color p
    | None => p
    end in
  snd p
  ++ [{| dt_xy := (50, height - 40); dt_text := TimestampText timestamp;
         dt_font := caption_font; dt_fill := text_color;
         dt_anchor := anchor_la |};
      {| dt_xy := (width - 50, height - 40); dt_text := FooterText;
         dt_font := caption_font; dt_fill := text_color;
         dt_anchor := anchor_rs |}].

(** The image handed to [image.save], lines 66 and 126. *)
Definition report_image (title_font header_font body_font caption_font : font)
  (timestamp : datetime)
  (cat : option (cat_info A)) (der : option (der_info A))
  (intake_analysis : option (intake_analysis A))
  (feeding_plan : option (feeding_plan A)) : image A :=
  {| im_size := (800, 800);
     im_background := (255, 255, 248);
     im_drawn := report_lines title_font header_font body_font caption_font
                   timestamp cat der intake_analysis feeding_plan |}.

(** Where a line is drawn, and what it says. *)
Definition line_y (d : draw_text A) : Z := snd (dt_xy d).

Definition line_x (d : draw_text A) : Z := fst (dt_xy d).

Definition on_canvas (d : draw_text A) : bool :=
  (0 <=? line_x d) && (line_x d <? 800)
  && (0 <=? line_y d) && (line_y d <? 800).

Definition is_intake_header (d : draw_text A) : bool :=
  match dt_text d with
  | IntakeHeader => true
  | _ => false
  end.

Definition is_plan_header (d : draw_text A) : bool :=
  match dt_text d with
  | PlanHeader => true
  | _ => false
  end.

(** The two lines of the footer, lines 121-123. *)
Definition is_footer_line (d : draw_text A) : bool :=
  match dt_text d with
  | TimestampText _ | FooterText => true
  | _ => false
  end.

End Drawing.

(** The values the widgets of the page let through, lines 149-161, 219-229
    and 288-291: a weight between 0.1 and 20 kg, an age of 0 to 25 years and
    0 to 11 months, a BCS of 1 to 9, food inputs of at least 0, and a slider
    from 0 to 100 in steps of 5. *)
Definition widgets_in_range (w : widgets float) : bool :=
  PrimFloat.leb (float_of_Q 0.1) (weight w)
  && PrimFloat.leb (weight w) 20
  && (0 <=? age_years w)%Z && (age_years w <=? 25)%Z
  && (0 <=? age_months_part w)%Z && (age_months_part w <=? 11)%Z
  && (1 <=? bcs w)%Z && (bcs w <=? 9)%Z
  && PrimFloat.leb 0 (dry_food_grams w)
  && PrimFloat.leb 0 (dry_food_kcal_per_1000g w)
  && PrimFloat.leb 0 (wet_food_grams w)
  && PrimFloat.leb 0 (wet_food_kcal_per_100g w)
  && (0 <=? wet_food_percentage w)%Z && (wet_food_percentage w <=? 100)%Z
  && (wet_food_percentage w mod 5 =? 0)%Z.

(** ** Histories *)

(** The session after a list of runs of the script, the earliest first;
    each run has its own environment and widgets. *)
Definition session_after_runs {A : Type} {N : Number A}
  (runs : list (environment A * widgets A)) (s : session_state A)
  : session_state A :=
  fold_left (fun s0 r => session_after (main (fst r) (snd r)) s0) runs s.

(** * Properties *)

(** ** The order of the two number types *)

Lemma SFcompare_swap (x y : spec_float) :
  SFcompare y x = option_map CompOpp (SFcompare x y).
Proof.
  destruct x as [sx | sx | | sx mx ex], y as [sy | sy | | sy my ey];
    try destruct sx; try destruct sy; cbn; try reflexivity.
  - rewrite (Z.compare_antisym ey ex).
    destruct (ey ?= ex)%Z; cbn; try reflexivity.
    change (PosDef.Pos.compare_cont Eq) with Pos.compare.
    rewrite (Pos.compare_antisym my mx).
    now destruct (my ?= mx)%positive.
  - rewrite (Z.compare_antisym ey ex).
    destruct (ey ?= ex)%Z; cbn; try reflexivity.
    change (PosDef.Pos.compare_cont Eq) with Pos.compare.
    rewrite (Pos.compare_antisym my mx).
    now destruct (my ?= mx)%positive.
Qed.

(** Below 2^63 the conversion of an integer does not wrap: it gives the
    double nearest to the integer. *)
Lemma float_of_Z_rounds (z : Z) :
  (0 <= z < 2 ^ 63)%Z ->
  Prim2SF (float_of_Z z) = binary_normalize prec emax z 0 false.
Proof.
  intros Hz. destruct z as [ | p | p]; try lia.
  - reflexivity.
  - unfold float_of_Z.
    rewrite FloatAxioms.of_uint63_spec, Uint63.of_Z_spec.
    rewrite Z.mod_small; [reflexivity | exact Hz].
Qed.

Lemma float_ltb_leb_false (x y : float) :
  PrimFloat.ltb x y = true -> PrimFloat.leb y x = false.
Proof.
  rewrite FloatAxioms.ltb_spec, FloatAxioms.leb_spec. unfold SFltb, SFleb.
  rewrite (SFcompare_swap (Prim2SF x) (Prim2SF y)).
  destruct (SFcompare (Prim2SF x) (Prim2SF y)) as [[] | ]; cbn; congruence.
Qed.

Lemma float_ltb_eqb_false (x y : float) :
  PrimFloat.ltb x y = true -> PrimFloat.eqb y x = false.
Proof.
  rewrite FloatAxioms.ltb_spec, FloatAxioms.eqb_spec. unfold SFltb, SFeqb.
  rewrite (SFcompare_swap (Prim2SF x) (Prim2SF y)).
  destruct (SFcompare (Prim2SF x) (Prim2SF y)) as [[] | ]; cbn; congruence.
Qed.

#[export] Instance binary64_order (fpow : float -> float -> float)
  : @NumberOrder float (binary64 fpow).
Proof.
  split; cbn.
  - exact float_ltb_leb_false.
  - exact float_ltb_eqb_false.
Qed.

Lemma Qc_ltb_lt (x y : Qc) : Qc_ltb x y = true <-> (x < y)%Qc.
Proof.
  unfold Qc_ltb. rewrite Qclt_alt.
  destruct (x ?= y)%Qc; split; congruence.
Qed.

Lemma Qc_leb_le (x y : Qc) : Qc_leb x y = true <-> (x <= y)%Qc.
Proof.
  unfold Qc_leb. rewrite Qcle_alt.
  destruct (x ?= y)%Qc; split; congruence.
Qed.

Lemma Qc_eq_bool_false (x y : Qc) : x <> y -> Qc_eq_bool x y = false.
Proof.
  intros Hxy. destruct (Qc_eq_bool x y) eqn:E; [ | reflexivity].
  apply Qc_eq_bool_correct in E. contradiction.
Qed.

#[export] Instance rational_order (qpow : Qc -> Qc -> Qc)
  : @NumberOrder Qc (rational qpow).
Proof.
  split; cbn; intros x y Hlt; apply Qc_ltb_lt in Hlt.
  - destruct (Qc_leb y x) eqn:E; [ | reflexivity].
    apply Qc_leb_le in E. exfalso. exact (Qclt_not_le _ _ Hlt E).
  - apply Qc_eq_bool_false. intros ->. exact (Qclt_not_le _ _ Hlt (Qcle_refl _)).
Qed.

(** ** Running a script *)

Ltac run_script :=
  unfold session_after, shown_by, outcome_of;
  unfold main, tab1, tab2, tab3, tab4, calculate_rer, truediv, show_verdict,
    bind, ret, emit, update, st_stop, raise, get_session;
  cbn beta iota.

Section Energy.

Context {A : Type} {N : Number A}.

Local Open Scope Z_scope.

Lemma bcs_adjusted_code (base over under : A) (b : Z) :
  (if b >? 5 then over else if b <? 4 then under else base)
  = bcs_adjusted base over under b.
Proof.
  unfold bcs_adjusted. now rewrite Z.gtb_ltb.
Qed.

(** C1. For every input the activity multiplier computed by
    [get_activity_multiplier] is the value of the specification's decision
    table read in precedence order (pregnant 2.0, else lactating 3.0, else by
    age bracket with the BCS adjustments), the table has a row for every
    input, and a BCS of 4 or 5 leaves the base value of the bracket. *)
Theorem get_activity_multiplier_table :
  forall (age_months : Z) (neutered : bool) (b : Z) (pregnant lactating : bool),
    activity_multiplier_table age_months neutered b pregnant lactating
    = Some (get_activity_multiplier age_months neutered b pregnant lactating)
    /\ (pregnant = false -> lactating = false -> 4 <= b <= 5 ->
        get_activity_multiplier age_months neutered b pregnant lactating
        = base_multiplier age_months neutered).
Proof.
  intros age_months neutered b pregnant lactating.
  unfold activity_multiplier_table, get_activity_multiplier, base_multiplier.
  cbn zeta. rewrite !bcs_adjusted_code.
  rewrite Z.geb_leb, Z.gtb_ltb.
  split.
  - destruct pregnant; [reflexivity | ].
    destruct lactating; [reflexivity | ].
    destruct (Z.ltb_spec age_months 4); [reflexivity | ].
    destruct (Z.leb_spec 4 age_months); [ | lia].
    destruct (Z.leb_spec age_months 12); cbn [andb]; [reflexivity | ].
    destruct (Z.ltb_spec 12 age_months); [ | lia].
    destruct (Z.leb_spec 13 age_months); [ | lia].
    destruct (Z.ltb_spec age_months 84), (Z.leb_spec age_months 83);
      cbn [andb]; try lia.
    + reflexivity.
    + destruct (Z.leb_spec 84 age_months); [reflexivity | lia].
  - intros -> -> Hb. unfold bcs_adjusted.
    destruct (Z.ltb_spec 5 b); [lia | ].
    destruct (Z.ltb_spec b 4); [lia | ].
    destruct (Z.ltb_spec age_months 4); [reflexivity | ].
    destruct (Z.leb_spec 4 age_months); [ | lia].
    destruct (Z.leb_spec age_months 12); cbn [andb]; [reflexivity | ].
    destruct (Z.ltb_spec 12 age_months); [ | lia].
    destruct (Z.ltb_spec age_months 84), (Z.leb_spec age_months 83);
      cbn [andb]; try lia; now destruct neutered.
Qed.

(** C2. For every weight above zero [calculate_rer] returns
    70 * weight ** 0.75, the exponent being the literal 0.75, and shows
    nothing; for every weight at or below zero it reports the invalid input
    and returns no number. *)
Theorem calculate_rer_correct {O : @NumberOrder A N} :
  forall (weight_kg : A) (s : session_state A),
    (ltb (of_Z 0) weight_kg = true ->
     calculate_rer weight_kg s
     = (Done (Some (mul (of_Z 70) (pow weight_kg (lit 0.75)))), s, []))
    /\ (leb weight_kg (of_Z 0) = true ->
        calculate_rer weight_kg s
        = (Done None, s, [StError WeightMustBePositive])).
Proof.
  intros weight_kg s. run_script. split; intros H.
  - now rewrite (ltb_leb_false _ _ H).
  - now rewrite H.
Qed.

End Energy.

(** ** The tabs, for every number type *)

Section Session.

Context {A : Type} {N : Number A}.

Local Open Scope Z_scope.

Lemma tab1_idle (w : widgets A) (s : session_state A) :
  calc_der w = false -> tab1 w s = (Done tt, s, []).
Proof.
  intros H. run_script. now rewrite H.
Qed.

Lemma tab1_rejects_age (w : widgets A) (s : session_state A) :
  calc_der w = true -> age_months_of w <= 0 ->
  tab1 w s = (Done tt, s, [StError AgeMustBePositive]).
Proof.
  intros Hc Hage. unfold age_months_of in Hage. run_script. rewrite Hc.
  cbn zeta. destruct (Z.leb_spec (age_years w * 12 + age_months_part w) 0);
    [reflexivity | lia].
Qed.

Lemma tab1_rejects_weight (w : widgets A) (s : session_state A) :
  calc_der w = true -> 0 < age_months_of w ->
  leb (weight w) (of_Z 0) = true ->
  tab1 w s = (Done tt, s, [StError WeightMustBePositive]).
Proof.
  intros Hc Hage Hw. unfold age_months_of in Hage. run_script. rewrite Hc.
  cbn zeta. destruct (Z.leb_spec (age_years w * 12 + age_months_part w) 0);
    [lia | ].
  now rewrite Hw.
Qed.

Lemma tab1_computes (w : widgets A) (s : session_state A) :
  calc_der w = true -> 0 < age_months_of w ->
  leb (weight w) (of_Z 0) = false ->
  tab1 w s
  = (Done tt, session_with_energy w, energy_shown (energy_result w)).
Proof.
  intros Hc Hage Hw. unfold age_months_of in Hage. run_script. rewrite Hc.
  cbn zeta. destruct (Z.leb_spec (age_years w * 12 + age_months_part w) 0);
    [lia | ].
  rewrite Hw. reflexivity.
Qed.

Lemma tab2_idle (w : widgets A) (s : session_state A) :
  analyze_intake w = false -> tab2 w s = (Done tt, s, []).
Proof.
  intros H. run_script. now rewrite H.
Qed.

Lemma tab2_without_der (w : widgets A) (s : session_state A) :
  current_der s = None -> analyze_intake w = true ->
  tab2 w s = (Stopped, s, [StError ComputeDerFirst]).
Proof.
  intros Hd Ha. run_script. now rewrite Ha, Hd.
Qed.

Lemma tab3_without_der (w : widgets A) (s : session_state A) :
  current_der s = None ->
  tab3 w s = (Done tt, s, [StInfo PlanIntro; StWarning PlanNeedsDer]).
Proof.
  intros Hd. run_script. now rewrite Hd.
Qed.

Lemma tab3_without_density (w : widgets A) (s : session_state A) (der : A) :
  current_der s = Some der ->
  eqb (dry_food_kcal_per_1000g w) (of_Z 0)
  && eqb (wet_food_kcal_per_100g w) (of_Z 0) = true ->
  tab3 w s = (Done tt, s, [StInfo PlanIntro; StWarning PlanNeedsDensity]).
Proof.
  intros Hd Hz. run_script. now rewrite Hd, Hz.
Qed.

Lemma tab3_idle (w : widgets A) (s : session_state A) :
  generate_plan w = false ->
  exists out, tab3 w s = (Done tt, s, out).
Proof.
  intros Hg. run_script. rewrite Hg.
  destruct (current_der s); [ | eexists; reflexivity].
  destruct (eqb _ _ && eqb _ _); eexists; reflexivity.
Qed.

Lemma tab4_without_der (e : environment A) (s : session_state A) :
  s_der_info s = None ->
  tab4 e s = (Done tt, s, [StInfo ReportNeedsDer]).
Proof.
  intros Hd. run_script. now rewrite Hd.
Qed.

Lemma tab4_without_font (e : environment A) (s : session_state A)
  (d : der_info A) :
  s_der_info s = Some d -> font_exists e = false ->
  tab4 e s = (Done tt, s, report_overview s ++ [StError FontMissing]).
Proof.
  intros Hd Hf. run_script. unfold report_overview. rewrite Hd, Hf.
  destruct (s_intake_analysis s), (s_feeding_plan s); reflexivity.
Qed.

Lemma tab4_with_font (e : environment A) (s : session_state A)
  (d : der_info A) :
  s_der_info s = Some d -> font_exists e = true ->
  tab4 e s
  = (Done tt, s,
     report_overview s ++ [StInfo DownloadHint] ++ download_shown e s).
Proof.
  intros Hd Hf. run_script. unfold report_overview, download_shown.
  rewrite Hd, Hf. cbn [negb].
  destruct (s_intake_analysis s), (s_feeding_plan s); cbn;
    match goal with
    | |- context [generate_diet_report_image ?a ?b ?c ?d ?f] =>
        destruct (generate_diet_report_image a b c d f) as [[ | ? ?] | ]
    end; reflexivity.
Qed.

Lemma tab4_keeps_session (e : environment A) (s : session_state A) :
  exists out, tab4 e s = (Done tt, s, out).
Proof.
  destruct (s_der_info s) as [d | ] eqn:Hd.
  - destruct (font_exists e) eqn:Hf.
    + eexists. exact (tab4_with_font e s Hd Hf).
    + eexists. exact (tab4_without_font e s Hd Hf).
  - eexists. exact (tab4_without_der e s Hd).
Qed.

End Session.

(** ** The tabs on IEEE 754 doubles *)

Section Binary64.

Variable fpow : float -> float -> float.

Local Abbreviation B64 := (binary64 fpow).

Lemma tab2_binary64 (w : widgets float) (s : session_state float)
  (der : float) :
  current_der s = Some der -> analyze_intake w = true ->
  let i := intake_as_specified (N := B64) der
             (dry_food_grams w) (dry_food_kcal_per_1000g w)
             (wet_food_grams w) (wet_food_kcal_per_100g w) in
  tab2 (N := B64) w s
  = (Done tt, set_intake_analysis i s, intake_shown (N := B64) der i).
Proof.
  intros Hd Ha i. subst i. run_script. rewrite Ha, Hd.
  unfold intake_shown. cbn.
  destruct (classify _); reflexivity.
Qed.

Lemma tab3_binary64 (w : widgets float) (s : session_state float)
  (der : float) :
  current_der s = Some der -> generate_plan w = true ->
  PrimFloat.eqb (dry_food_kcal_per_1000g w) 0
  && PrimFloat.eqb (wet_food_kcal_per_100g w) 0 = false ->
  let p := plan_as_specified (N := B64) der (wet_food_percentage w)
             (dry_food_kcal_per_1000g w) (wet_food_kcal_per_100g w) in
  tab3 (N := B64) w s
  = (Done tt, set_feeding_plan p s, plan_shown der p).
Proof.
  intros Hd Hg Hz p. subst p. run_script. rewrite Hd.
  unfold plan_as_specified, plan_shown. cbn -[Z.sub].
  rewrite Hz, Hg.
  destruct (PrimFloat.ltb 0 (dry_food_kcal_per_1000g w)) eqn:Hdry;
    destruct (PrimFloat.ltb 0 (wet_food_kcal_per_100g w)) eqn:Hwet;
    try rewrite (float_ltb_eqb_false Hdry);
    try rewrite (float_ltb_eqb_false Hwet);
    reflexivity.
Qed.

Lemma float_below_band_not_above (d : float) :
  PrimFloat.ltb d (-5)%float = true -> PrimFloat.ltb 5%float d = false.
Proof.
  rewrite !FloatAxioms.ltb_spec.
  set (minus_five := Prim2SF (-5)%float). vm_compute in minus_five.
  set (five := Prim2SF 5%float). vm_compute in five.
  subst minus_five five.
  destruct (Prim2SF d) as [[] | [] | | [] m e];
    cbv beta iota delta [SFltb SFcompare]; congruence.
Qed.

Lemma float_eqb_ltb_false (x y : float) :
  PrimFloat.eqb x y = true -> PrimFloat.ltb y x = false.
Proof.
  rewrite FloatAxioms.ltb_spec, FloatAxioms.eqb_spec. unfold SFltb, SFeqb.
  rewrite (SFcompare_swap (Prim2SF x) (Prim2SF y)).
  destruct (SFcompare (Prim2SF x) (Prim2SF y)) as [[] | ]; cbn; congruence.
Qed.

Lemma classify_binary64 (d : float) :
  classify (N := B64) d
  = if PrimFloat.ltb 5%float d then over_target
    else if PrimFloat.ltb d (-5)%float then under_target
    else on_target.
Proof. reflexivity. Qed.

(** C3. The verdict on a calorie difference is "over target" exactly when
    the difference is above 5, "under target" exactly when it is below -5,
    and "on target" otherwise; 5 and -5 themselves are on target; and the
    analysis of tab 2 ends by showing the verdict on the difference it has
    stored. *)
Theorem classify_band :
  (forall d : float,
      (classify (N := B64) d = over_target
       <-> PrimFloat.ltb 5%float d = true)
      /\ (classify (N := B64) d = under_target
          <-> PrimFloat.ltb d (-5)%float = true)
      /\ (classify (N := B64) d = on_target
          <-> PrimFloat.ltb 5%float d = false
              /\ PrimFloat.ltb d (-5)%float = false))
  /\ classify (N := B64) 5%float = on_target
  /\ classify (N := B64) (-5)%float = on_target
  /\ (forall (w : widgets float) (s : session_state float) (der : float),
        current_der s = Some der -> analyze_intake w = true ->
        exists i : intake_analysis float,
          s_intake_analysis (session_after (tab2 (N := B64) w) s) = Some i
          /\ exists lines : list (ui_call float),
              shown_by (tab2 (N := B64) w) s
              = lines ++ verdict_shown (N := B64)
                           (classify (N := B64) (ia_calorie_difference i))
                           (ia_calorie_difference i)).
Proof.
  split; [ | split; [reflexivity | split; [reflexivity | ]]].
  - intros d. rewrite classify_binary64.
    destruct (PrimFloat.ltb 5%float d) eqn:Hover.
    + repeat split; try congruence.
      * intros Hunder.
        pose proof (float_below_band_not_above Hunder). congruence.
      * intros [H _]. congruence.
    + destruct (PrimFloat.ltb d (-5)%float) eqn:Hunder;
        repeat split; try congruence.
      intros [_ H]. congruence.
  - intros w s der Hd Ha.
    unfold session_after, shown_by. rewrite (tab2_binary64 w s Hd Ha).
    cbn [fst snd set_intake_analysis s_intake_analysis].
    eexists. split; [reflexivity | ].
    unfold intake_shown. eexists. reflexivity.
Qed.

Lemma plan_as_specified_binary64 (der : float) (pct : Z) (dry wet : float) :
  plan_as_specified (N := B64) der pct dry wet
  = {| fp_wet_food_percentage := pct;
       fp_required_dry_grams :=
         if PrimFloat.ltb 0 dry
         then (der * (float_of_Z (100 - pct) / 100) / dry * 1000)%float
         else 0%float;
       fp_required_wet_grams :=
         if PrimFloat.ltb 0 wet
         then (der * (float_of_Z pct / 100) / wet * 100)%float
         else 0%float |}.
Proof. reflexivity. Qed.

Lemma intake_as_specified_binary64 (der dg dk wg wk : float) :
  intake_as_specified (N := B64) der dg dk wg wk
  = {| ia_dry_food_grams := dg;
       ia_dry_food_kcal := (dg / 1000 * dk)%float;
       ia_wet_food_grams := wg;
       ia_wet_food_kcal := (wg / 100 * wk)%float;
       ia_total_intake := (dg / 1000 * dk + wg / 100 * wk)%float;
       ia_calorie_difference :=
         (dg / 1000 * dk + wg / 100 * wk - der)%float |}.
Proof. reflexivity. Qed.

(** C4, as the code has it. With a DER in the session, the slider between
    0 and 100, caloric densities of at least zero and the button of tab 3
    clicked: when the two caloric densities are not both zero, the plan
    stored is the specified one -- target calories der * (pct / 100) and
    der * ((100 - pct) / 100), grams (target / density) * 1000 for dry food
    and * 100 for wet food when the density is above zero and 0 otherwise --
    and the run ends without a ZeroDivisionError; a density equal to zero
    gives 0 grams; when both densities are zero, tab 3 shows a warning and
    stores no plan. *)
Theorem plan_feeding_guarded :
  forall (w : widgets float) (s : session_state float) (der : float),
    current_der s = Some der -> generate_plan w = true ->
    (0 <= wet_food_percentage w <= 100)%Z ->
    PrimFloat.leb 0 (dry_food_kcal_per_1000g w) = true ->
    PrimFloat.leb 0 (wet_food_kcal_per_100g w) = true ->
    (PrimFloat.eqb (dry_food_kcal_per_1000g w) 0
     && PrimFloat.eqb (wet_food_kcal_per_100g w) 0 = false ->
     tab3 (N := B64) w s
     = (Done tt,
        set_feeding_plan
          {| fp_wet_food_percentage := wet_food_percentage w;
             fp_required_dry_grams :=
               if PrimFloat.ltb 0 (dry_food_kcal_per_1000g w)
               then (der * (float_of_Z (100 - wet_food_percentage w) / 100)
                     / dry_food_kcal_per_1000g w * 1000)%float
               else 0%float;
             fp_required_wet_grams :=
               if PrimFloat.ltb 0 (wet_food_kcal_per_100g w)
               then (der * (float_of_Z (wet_food_percentage w) / 100)
                     / wet_food_kcal_per_100g w * 100)%float
               else 0%float |} s,
        plan_shown der
          (plan_as_specified (N := B64) der (wet_food_percentage w)
             (dry_food_kcal_per_1000g w) (wet_food_kcal_per_100g w))))
    /\ (PrimFloat.eqb (dry_food_kcal_per_1000g w) 0 = true ->
        PrimFloat.eqb (wet_food_kcal_per_100g w) 0 = false ->
        outcome_of (tab3 (N := B64) w) s = Done tt
        /\ exists p : feeding_plan float,
            s_feeding_plan (session_after (tab3 (N := B64) w) s) = Some p
            /\ fp_required_dry_grams p = 0%float)
    /\ (PrimFloat.eqb (wet_food_kcal_per_100g w) 0 = true ->
        PrimFloat.eqb (dry_food_kcal_per_1000g w) 0 = false ->
        outcome_of (tab3 (N := B64) w) s = Done tt
        /\ exists p : feeding_plan float,
            s_feeding_plan (session_after (tab3 (N := B64) w) s) = Some p
            /\ fp_required_wet_grams p = 0%float)
    /\ (PrimFloat.eqb (dry_food_kcal_per_1000g w) 0
        && PrimFloat.eqb (wet_food_kcal_per_100g w) 0 = true ->
        tab3 (N := B64) w s
        = (Done tt, s, [StInfo PlanIntro; StWarning PlanNeedsDensity])).
Proof.
  intros w s der Hd Hg _ _ _. split; [ | split; [ | split]].
  - intros Hz. rewrite (tab3_binary64 w s Hd Hg Hz).
    now rewrite plan_as_specified_binary64.
  - intros Hdry Hwet.
    assert (Hz : PrimFloat.eqb (dry_food_kcal_per_1000g w) 0
                 && PrimFloat.eqb (wet_food_kcal_per_100g w) 0 = false)
      by (rewrite Hwet; apply andb_false_r).
    unfold outcome_of, session_after.
    rewrite (tab3_binary64 w s Hd Hg Hz), plan_as_specified_binary64.
    cbn [fst snd set_feeding_plan s_feeding_plan].
    split; [reflexivity | ]. eexists. split; [reflexivity | ].
    cbn [fp_required_dry_grams]. now rewrite (float_eqb_ltb_false Hdry).
  - intros Hwet Hdry.
    assert (Hz : PrimFloat.eqb (dry_food_kcal_per_1000g w) 0
                 && PrimFloat.eqb (wet_food_kcal_per_100g w) 0 = false)
      by (rewrite Hdry; reflexivity).
    unfold outcome_of, session_after.
    rewrite (tab3_binary64 w s Hd Hg Hz), plan_as_specified_binary64.
    cbn [fst snd set_feeding_plan s_feeding_plan].
    split; [reflexivity | ]. eexists. split; [reflexivity | ].
    cbn [fp_required_wet_grams]. now rewrite (float_eqb_ltb_false Hwet).
  - intros Hz. exact (tab3_without_density (N := B64) w s Hd Hz).
Qed.

(** C5. With a DER in the session and the button of tab 2 clicked, the
    analysis stored has dry kcal = (dry grams / 1000) * kcal per 1000 g,
    wet kcal = (wet grams / 100) * kcal per 100 g, their sum as the total,
    and the total minus the DER as the calorie difference; for a DER of 250,
    50 g of dry food at 3500 kcal/1000 g and 100 g of wet food at
    90 kcal/100 g this is 175 + 90 = 265 kcal and a difference of 15. *)
Theorem analyze_intake_formulas :
  (forall (w : widgets float) (s : session_state float) (der : float),
      current_der s = Some der -> analyze_intake w = true ->
      outcome_of (tab2 (N := B64) w) s = Done tt
      /\ s_intake_analysis (session_after (tab2 (N := B64) w) s)
         = Some {| ia_dry_food_grams := dry_food_grams w;
                   ia_dry_food_kcal :=
                     (dry_food_grams w / 1000
                      * dry_food_kcal_per_1000g w)%float;
                   ia_wet_food_grams := wet_food_grams w;
                   ia_wet_food_kcal :=
                     (wet_food_grams w / 100
                      * wet_food_kcal_per_100g w)%float;
                   ia_total_intake :=
                     (dry_food_grams w / 1000 * dry_food_kcal_per_1000g w
                      + wet_food_grams w / 100
                        * wet_food_kcal_per_100g w)%float;
                   ia_calorie_difference :=
                     (dry_food_grams w / 1000 * dry_food_kcal_per_1000g w
                      + wet_food_grams w / 100 * wet_food_kcal_per_100g w
                      - der)%float |})
  /\ s_intake_analysis
       (session_after
          (tab2 (N := B64)
             (click_analyze_intake
                (with_food 50%float 3500%float 100%float 90%float
                   (default_widgets (N := B64)))))
          (session_with_der 250%float))
     = Some {| ia_dry_food_grams := 50%float;
               ia_dry_food_kcal := 175%float;
               ia_wet_food_grams := 100%float;
               ia_wet_food_kcal := 90%float;
               ia_total_intake := 265%float;
               ia_calorie_difference := 15%float |}.
Proof.
  split.
  - intros w s der Hd Ha. unfold outcome_of, session_after.
    rewrite (tab2_binary64 w s Hd Ha). split; reflexivity.
  - vm_compute. reflexivity.
Qed.

End Binary64.

(** ** Runs of the whole script *)

Section Runs.

Context {A : Type} {N : Number A}.

Local Open Scope Z_scope.

Lemma session_after_bind {X Y : Type} (m : script A X) (f : X -> script A Y)
  (s : session_state A) :
  session_after (bind m f) s
  = match outcome_of m s with
    | Done x => session_after (f x) (session_after m s)
    | _ => session_after m s
    end.
Proof.
  unfold session_after, outcome_of, bind.
  destruct (m s) as [[[x | | e] s1] out1]; cbn; try reflexivity.
  now destruct (f x s1) as [[r s2] out2].
Qed.

(** A property of the session that every step keeps is kept by their
    sequence, however the first step ends. *)
Lemma kept_by_bind {X Y : Type} (P : session_state A -> Prop)
  (m : script A X) (f : X -> script A Y) :
  (forall s, P s -> P (session_after m s)) ->
  (forall x s, P s -> P (session_after (f x) s)) ->
  forall s, P s -> P (session_after (bind m f) s).
Proof.
  intros Hm Hf s Hs. rewrite session_after_bind.
  destruct (outcome_of m s); auto.
Qed.

Lemma kept_by_main (P : session_state A -> Prop) :
  (forall w s, P s -> P (session_after (tab1 w) s)) ->
  (forall w s, P s -> P (session_after (tab2 w) s)) ->
  (forall w s, P s -> P (session_after (tab3 w) s)) ->
  forall e w s, P s -> P (session_after (main e w) s).
Proof.
  intros H1 H2 H3 e w. unfold main.
  apply kept_by_bind; [apply H1 | intros _].
  apply kept_by_bind; [apply H2 | intros _].
  apply kept_by_bind; [apply H3 | intros _].
  intros s Hs. destruct (tab4_keeps_session e s) as [out Hout].
  unfold session_after. now rewrite Hout.
Qed.

Lemma kept_in_reachable (P : session_state A -> Prop) :
  P (empty_session A) ->
  (forall w s, P s -> P (session_after (tab1 w) s)) ->
  (forall w s, P s -> P (session_after (tab2 w) s)) ->
  (forall w s, P s -> P (session_after (tab3 w) s)) ->
  forall s, reachable s -> P s.
Proof.
  intros H0 H1 H2 H3 s Hs.
  induction Hs as [ | e w s Hs IH]; [exact H0 | ].
  now apply kept_by_main.
Qed.

(** What each tab can do to the session. *)
Lemma tab1_session (w : widgets A) (s : session_state A) :
  session_after (tab1 w) s = s
  \/ session_after (tab1 w) s = session_with_energy w.
Proof.
  unfold session_after.
  destruct (calc_der w) eqn:Hc; [ | left; now rewrite tab1_idle].
  destruct (Z.leb_spec (age_months_of w) 0) as [Hage | Hage];
    [left; now rewrite tab1_rejects_age | ].
  destruct (leb (weight w) (of_Z 0)) eqn:Hw.
  - left. now rewrite tab1_rejects_weight.
  - right. now rewrite tab1_computes.
Qed.

Lemma tab2_session (w : widgets A) (s : session_state A) :
  session_after (tab2 w) s = s
  \/ exists (der : A) (i : intake_analysis A),
       current_der s = Some der
       /\ ia_calorie_difference i = sub (ia_total_intake i) der
       /\ session_after (tab2 w) s = set_intake_analysis i s.
Proof.
  run_script.
  destruct (analyze_intake w); [ | now left].
  destruct (current_der s) as [der | ] eqn:Hd; [ | now left].
  destruct (eqb (lit 1000.0) (of_Z 0)); [now left | ].
  destruct (eqb (lit 100.0) (of_Z 0)); [now left | ].
  right. exists der. eexists. split; [reflexivity | ].
  split; [ | destruct (classify _); reflexivity]. reflexivity.
Qed.

Lemma tab3_session (w : widgets A) (s : session_state A) :
  session_after (tab3 w) s = s
  \/ exists (der : A) (p : feeding_plan A),
       current_der s = Some der
       /\ session_after (tab3 w) s = set_feeding_plan p s.
Proof.
  run_script.
  destruct (current_der s) as [der | ] eqn:Hd; [ | now left].
  destruct (eqb _ _ && eqb _ _); [now left | ].
  destruct (generate_plan w); [ | now left].
  destruct (eqb (lit 100.0) (of_Z 0)); [now left | ].
  destruct (ltb (of_Z 0) (dry_food_kcal_per_1000g w));
    destruct (ltb (of_Z 0) (wet_food_kcal_per_100g w));
    try destruct (eqb (dry_food_kcal_per_1000g w) (of_Z 0));
    try destruct (eqb (wet_food_kcal_per_100g w) (of_Z 0));
    try (now left);
    right; exists der; eexists; (split; [reflexivity | reflexivity]).
Qed.

Lemma energy_consistent_in_reachable (s : session_state A) :
  reachable s -> energy_consistent s.
Proof.
  apply kept_in_reachable.
  - intros e He. discriminate He.
  - intros w s0 H0. destruct (tab1_session w s0) as [-> | ->]; [exact H0 | ].
    intros e He. injection He as <-. repeat split.
  - intros w s0 H0.
    destruct (tab2_session w s0) as [-> | (der & i & _ & _ & ->)];
      [exact H0 | exact H0].
  - intros w s0 H0.
    destruct (tab3_session w s0) as [-> | (der & p & _ & ->)];
      [exact H0 | exact H0].
Qed.

End Runs.

(** ** The session across the tabs *)

Section SessionClaims.

Context {A : Type} {N : Number A}.

Local Open Scope Z_scope.

Lemma main_only_tab1 (e : environment A) (w : widgets A)
  (s : session_state A) :
  analyze_intake w = false -> generate_plan w = false ->
  session_after (main e w) s = session_after (tab1 w) s.
Proof.
  intros Ha Hg. unfold main.
  rewrite session_after_bind. destruct (outcome_of (tab1 w) s); try reflexivity.
  generalize (session_after (tab1 w) s). intros s1. cbv beta.
  rewrite session_after_bind. unfold outcome_of, session_after at 2 3.
  rewrite (tab2_idle w s1 Ha). cbn [fst snd].
  rewrite session_after_bind.
  destruct (tab3_idle w s1 Hg) as [out3 H3].
  unfold outcome_of, session_after at 2 3. rewrite H3. cbn [fst snd].
  destruct (tab4_keeps_session e s1) as [out4 H4].
  unfold session_after. now rewrite H4.
Qed.

(** C7. In a session without a DER (the key absent, or bound to [None]),
    the intake analysis reports that the DER must be computed first and
    stops the run, and tab 3 shows its warning whatever the state of its
    button; in both cases the session is left as it was, so no intake
    analysis or feeding plan is stored, and no exception is raised. *)
Theorem der_required_first :
  forall (e : environment A) (w : widgets A) (s : session_state A),
    current_der s = None ->
    (analyze_intake w = true ->
     tab2 w s = (Stopped, s, [StError ComputeDerFirst]))
    /\ tab3 w s = (Done tt, s, [StInfo PlanIntro; StWarning PlanNeedsDer])
    /\ (calc_der w = false -> analyze_intake w = true ->
        main e w s = (Stopped, s, [StError ComputeDerFirst]))
    /\ (calc_der w = false -> session_after (main e w) s = s).
Proof.
  intros e w s Hd. repeat split.
  - intros Ha. exact (tab2_without_der w s Hd Ha).
  - exact (tab3_without_der w s Hd).
  - intros Hc Ha. unfold main, bind.
    now rewrite (tab1_idle w s Hc), (tab2_without_der w s Hd Ha).
  - intros Hc. unfold main.
    rewrite session_after_bind. unfold outcome_of, session_after at 2 3.
    rewrite (tab1_idle w s Hc). cbn [fst snd].
    rewrite session_after_bind.
    destruct (analyze_intake w) eqn:Ha.
    + unfold outcome_of, session_after.
      now rewrite (tab2_without_der w s Hd Ha).
    + unfold outcome_of, session_after at 2 3.
      rewrite (tab2_idle w s Ha). cbn [fst snd].
      rewrite session_after_bind. unfold outcome_of, session_after at 2 3.
      rewrite (tab3_without_der w s Hd). cbn [fst snd].
      destruct (tab4_keeps_session e s) as [out4 H4].
      unfold session_after. now rewrite H4.
Qed.

(** C9. The renderer returns nothing when a size of the font fails to load
    and the PNG encoding of the image it has drawn when all four load; tab 4
    looks for the font file first, and when the file is absent it reports
    that, does not call the renderer and shows no download button. *)
Theorem report_needs_font :
  forall (e : environment A) (s : session_state A)
         (cat : option (cat_info A)) (der : option (der_info A))
         (intake : option (intake_analysis A))
         (plan : option (feeding_plan A)),
    ((truetype e 48 = None \/ truetype e 32 = None
      \/ truetype e 24 = None \/ truetype e 16 = None) ->
     generate_diet_report_image e cat der intake plan = None)
    /\ (fonts_load e = true ->
        exists img : image A,
          generate_diet_report_image e cat der intake plan
          = Some (png_save e img)
          /\ im_size img = (800, 800))
    /\ (font_exists e = false ->
        existsb (@is_download A) (shown_by (tab4 e) s) = false
        /\ forall d : der_info A,
            s_der_info s = Some d ->
            tab4 e s
            = (Done tt, s, report_overview s ++ [StError FontMissing])).
Proof.
  intros e s cat der intake plan. repeat split.
  - unfold generate_diet_report_image.
    intros [H | [H | [H | H]]]; rewrite H;
      destruct (truetype e 48), (truetype e 32), (truetype e 24);
      reflexivity.
  - unfold fonts_load, generate_diet_report_image.
    destruct (truetype e 48), (truetype e 32), (truetype e 24),
      (truetype e 16); try discriminate.
    intros _. eexists. split; reflexivity.
  - unfold shown_by. destruct (s_der_info s) as [d | ] eqn:Hd.
    + rewrite (tab4_without_font e s Hd H). cbn [snd].
      rewrite existsb_app. unfold report_overview. rewrite !existsb_app.
      destruct (s_intake_analysis s), (s_feeding_plan s); reflexivity.
    + now rewrite (tab4_without_der e s Hd).
  - intros d Hd. exact (tab4_without_font e s Hd H).
Qed.

End SessionClaims.

(** ** The energy result and its invalidation of older results *)

(** C6. When tab 1 computes (button clicked, age above zero months, weight
    not at or below zero) the energy result it stores has
    der = rer * multiplier, a water intake equal to that der, and the same
    der under the session key ['der']; this holds of the energy result of
    every session a user can reach; and in double precision a rer of 100
    with the multiplier 1.2 gives exactly 120.0. *)
Theorem der_is_rer_times_multiplier :
  (forall (A : Type) (N : Number A) (w : widgets A) (s : session_state A),
      calc_der w = true -> (0 < age_months_of w)%Z ->
      leb (weight w) (of_Z 0) = false ->
      exists e : der_info A,
        s_der_info (session_after (tab1 w) s) = Some e
        /\ di_rer e = mul (of_Z 70) (pow (weight w) (lit 0.75))
        /\ di_multiplier e
           = get_activity_multiplier (age_months_of w) (is_neutered w)
               (bcs w) (is_pregnant w) (is_lactating w)
        /\ di_der e = mul (di_rer e) (di_multiplier e)
        /\ di_water_intake e = di_der e
        /\ s_der (session_after (tab1 w) s) = Some (Some (di_der e)))
  /\ (forall (A : Type) (N : Number A) (s : session_state A),
         reachable s -> energy_consistent s)
  /\ der_of (N := py_float) (lit (Number := py_float) 100.0)
       (lit (Number := py_float) 1.2)
     = 120%float.
Proof.
  split; [ | split].
  - intros A N w s Hc Hage Hw. unfold session_after.
    rewrite (tab1_computes w s Hc Hage Hw). cbn [fst snd].
    exists (energy_result w). repeat split.
  - intros A N s. apply energy_consistent_in_reachable.
  - reflexivity.
Qed.

Section Invalidation.

Variable fpow : float -> float -> float.

Local Abbreviation B64 := (binary64 fpow).

Lemma current_der_set_intake_analysis (i : intake_analysis float)
  (s : session_state float) :
  current_der (set_intake_analysis i s) = current_der s.
Proof. reflexivity. Qed.

Lemma current_der_set_feeding_plan (p : feeding_plan float)
  (s : session_state float) :
  current_der (set_feeding_plan p s) = current_der s.
Proof. reflexivity. Qed.

Lemma nothing_stale_tab1 (w : widgets float) (s : session_state float) :
  nothing_stale (N := B64) s ->
  nothing_stale (N := B64) (session_after (tab1 (N := B64) w) s).
Proof.
  intros H. destruct (tab1_session (N := B64) w s) as [-> | ->];
    [exact H | ].
  split; intros x Hx; discriminate Hx.
Qed.

Lemma nothing_stale_tab2 (w : widgets float) (s : session_state float) :
  nothing_stale (N := B64) s ->
  nothing_stale (N := B64) (session_after (tab2 (N := B64) w) s).
Proof.
  intros H. unfold session_after.
  destruct (analyze_intake w) eqn:Ha;
    [ | rewrite (tab2_idle w s Ha); cbn [fst snd]; exact H].
  destruct (current_der s) as [der | ] eqn:Hd;
    [ | rewrite (tab2_without_der w s Hd Ha); cbn [fst snd]; exact H].
  rewrite (tab2_binary64 fpow w s Hd Ha). cbn [fst snd].
  destruct H as [Hi Hp]. split.
  - intros i Hi'. injection Hi' as <-.
    exists der, (dry_food_kcal_per_1000g w), (wet_food_kcal_per_100g w).
    rewrite current_der_set_intake_analysis. split; [exact Hd | reflexivity].
  - intros p Hp'. rewrite current_der_set_intake_analysis.
    apply Hp. exact Hp'.
Qed.

Lemma nothing_stale_tab3 (w : widgets float) (s : session_state float) :
  nothing_stale (N := B64) s ->
  nothing_stale (N := B64) (session_after (tab3 (N := B64) w) s).
Proof.
  intros H. unfold session_after.
  destruct (generate_plan w) eqn:Hg.
  2:{ destruct (tab3_idle (N := B64) w s Hg) as [out ->]. exact H. }
  destruct (current_der s) as [der | ] eqn:Hd;
    [ | rewrite (tab3_without_der w s Hd); cbn [fst snd]; exact H].
  destruct (PrimFloat.eqb (dry_food_kcal_per_1000g w) 0
            && PrimFloat.eqb (wet_food_kcal_per_100g w) 0) eqn:Hz.
  - rewrite (tab3_without_density (N := B64) w s Hd Hz). cbn [fst snd]; exact H.
  - rewrite (tab3_binary64 fpow w s Hd Hg Hz). cbn [fst snd].
    destruct H as [Hi Hp]. split.
    + intros i Hi'. rewrite current_der_set_feeding_plan.
      apply Hi. exact Hi'.
    + intros p Hp'. injection Hp' as <-.
      exists der, (dry_food_kcal_per_1000g w), (wet_food_kcal_per_100g w).
      rewrite current_der_set_feeding_plan. split; [exact Hd | reflexivity].
Qed.

Lemma nothing_stale_in_reachable (s : session_state float) :
  reachable (N := B64) s -> nothing_stale (N := B64) s.
Proof.
  apply kept_in_reachable.
  - split; intros x Hx; discriminate Hx.
  - exact nothing_stale_tab1.
  - exact nothing_stale_tab2.
  - exact nothing_stale_tab3.
Qed.

End Invalidation.

(** C8. A recomputation of the DER that succeeds stores the new energy
    result and leaves no intake analysis and no feeding plan in the session,
    also at the end of the run; one that fails (age of zero months or less,
    or weight at or below zero) stores nothing and leaves the session as it
    was; and in every session a user can reach, a stored intake analysis or
    feeding plan is one the formulas give for the DER the session holds and
    some caloric densities. *)
Theorem recomputation_invalidates :
  (forall (A : Type) (N : Number A) (e : environment A) (w : widgets A)
          (s : session_state A),
      calc_der w = true -> (0 < age_months_of w)%Z ->
      leb (weight w) (of_Z 0) = false ->
      (s_der_info (session_after (tab1 w) s) = Some (energy_result w)
       /\ s_intake_analysis (session_after (tab1 w) s) = None
       /\ s_feeding_plan (session_after (tab1 w) s) = None)
      /\ (analyze_intake w = false -> generate_plan w = false ->
          session_after (main e w) s = session_with_energy w))
  /\ (forall (A : Type) (N : Number A) (w : widgets A) (s : session_state A),
         calc_der w = true ->
         (age_months_of w <= 0)%Z \/ leb (weight w) (of_Z 0) = true ->
         session_after (tab1 w) s = s)
  /\ (forall (fpow : float -> float -> float) (s : session_state float),
         reachable (N := binary64 fpow) s ->
         nothing_stale (N := binary64 fpow) s).
Proof.
  split; [ | split].
  - intros A N e w s Hc Hage Hw.
    assert (H1 : session_after (tab1 w) s = session_with_energy w).
    { unfold session_after. now rewrite (tab1_computes w s Hc Hage Hw). }
    split.
    + rewrite H1. repeat split.
    + intros Ha Hg. now rewrite (main_only_tab1 e w s Ha Hg).
  - intros A N w s Hc Hfail. unfold session_after.
    destruct (Z.leb_spec (age_months_of w) 0) as [Hage | Hage].
    + now rewrite (tab1_rejects_age w s Hc Hage).
    + destruct Hfail as [Hbad | Hw]; [lia | ].
      now rewrite (tab1_rejects_weight w s Hc Hage Hw).
  - exact nothing_stale_in_reachable.
Qed.

(** ** The plan and the analysis in exact arithmetic *)

Section Exact.

Variable qpow : Qc -> Qc -> Qc.

Local Abbreviation RAT := (rational qpow).

Lemma Qc_hundred_nonzero : Qc_eq_bool (Q2Qc 100.0) (Q2Qc 0) = false.
Proof. vm_compute. reflexivity. Qed.

Lemma Qc_thousand_nonzero : Qc_eq_bool (Q2Qc 1000.0) (Q2Qc 0) = false.
Proof. vm_compute. reflexivity. Qed.

Lemma Qc_positive_nonzero (x : Qc) :
  (Q2Qc 0 < x)%Qc -> Qc_eq_bool x (Q2Qc 0) = false.
Proof.
  intros H. apply Qc_eq_bool_false. intros ->.
  exact (Qclt_not_le _ _ H (Qcle_refl _)).
Qed.

Lemma Qc_positive_ltb (x : Qc) :
  (Q2Qc 0 < x)%Qc -> Qc_ltb (Q2Qc 0) x = true.
Proof. intros H. now apply Qc_ltb_lt. Qed.

Lemma tab3_rational (w : widgets Qc) (s : session_state Qc) (der : Qc) :
  current_der s = Some der -> generate_plan w = true ->
  (Q2Qc 0 < dry_food_kcal_per_1000g w)%Qc ->
  (Q2Qc 0 < wet_food_kcal_per_100g w)%Qc ->
  session_after (tab3 (N := RAT) w) s
  = set_feeding_plan
      {| fp_wet_food_percentage := wet_food_percentage w;
         fp_required_dry_grams :=
           (der * (Q2Qc (inject_Z (100 - wet_food_percentage w))
                   / Q2Qc 100.0)
            / dry_food_kcal_per_1000g w * Q2Qc 1000.0)%Qc;
         fp_required_wet_grams :=
           (der * (Q2Qc (inject_Z (wet_food_percentage w)) / Q2Qc 100.0)
            / wet_food_kcal_per_100g w * Q2Qc 100.0)%Qc |} s.
Proof.
  intros Hd Hg Hdry Hwet. run_script. rewrite Hd, Hg.
  cbn [of_Z lit add sub mul div opp ltb leb eqb rational].
  change (Q2Qc (inject_Z 0)) with (Q2Qc 0).
  rewrite (Qc_positive_nonzero Hdry), (Qc_positive_nonzero Hwet).
  rewrite (Qc_positive_ltb Hdry), (Qc_positive_ltb Hwet).
  rewrite Qc_hundred_nonzero. reflexivity.
Qed.

Lemma tab2_rational (w : widgets Qc) (s : session_state Qc) (der : Qc) :
  current_der s = Some der -> analyze_intake w = true ->
  session_after (tab2 (N := RAT) w) s
  = set_intake_analysis
      {| ia_dry_food_grams := dry_food_grams w;
         ia_dry_food_kcal :=
           (dry_food_grams w / Q2Qc 1000.0 * dry_food_kcal_per_1000g w)%Qc;
         ia_wet_food_grams := wet_food_grams w;
         ia_wet_food_kcal :=
           (wet_food_grams w / Q2Qc 100.0 * wet_food_kcal_per_100g w)%Qc;
         ia_total_intake :=
           (dry_food_grams w / Q2Qc 1000.0 * dry_food_kcal_per_1000g w
            + wet_food_grams w / Q2Qc 100.0 * wet_food_kcal_per_100g w)%Qc;
         ia_calorie_difference :=
           (dry_food_grams w / Q2Qc 1000.0 * dry_food_kcal_per_1000g w
            + wet_food_grams w / Q2Qc 100.0 * wet_food_kcal_per_100g w
            - der)%Qc |} s.
Proof.
  intros Hd Ha. run_script. rewrite Ha, Hd.
  cbn [of_Z lit add sub mul div opp ltb leb eqb rational].
  change (Q2Qc (inject_Z 0)) with (Q2Qc 0).
  rewrite Qc_hundred_nonzero, Qc_thousand_nonzero.
  cbv beta iota.
  destruct (classify _); reflexivity.
Qed.

(** The two shares of the target make the whole. *)
Lemma Qc_shares (pct : Z) :
  (Q2Qc (inject_Z (100 - pct)) + Q2Qc (inject_Z pct))%Qc = Q2Qc 100.0.
Proof.
  apply Qc_is_canon. cbn [this Qcplus Q2Qc].
  rewrite !Qred_correct.
  unfold Qeq, Qplus, inject_Z. cbn [Qnum Qden]. lia.
Qed.

Lemma Qc_nonzero_of_bool (x : Qc) :
  Qc_eq_bool x (Q2Qc 0) = false -> x <> Q2Qc 0.
Proof.
  intros H ->. unfold Qc_eq_bool in H.
  destruct (Qc_eq_dec (Q2Qc 0) (Q2Qc 0)); [discriminate | contradiction].
Qed.

Lemma planned_calories (der dry wet : Qc) (pct : Z) :
  dry <> Q2Qc 0 -> wet <> Q2Qc 0 ->
  (der * (Q2Qc (inject_Z (100 - pct)) / Q2Qc 100.0) / dry * Q2Qc 1000.0
   / Q2Qc 1000.0 * dry
   + der * (Q2Qc (inject_Z pct) / Q2Qc 100.0) / wet * Q2Qc 100.0
     / Q2Qc 100.0 * wet)%Qc
  = der.
Proof.
  intros Hdry Hwet.
  pose proof (Qc_nonzero_of_bool Qc_hundred_nonzero) as H100.
  pose proof (Qc_nonzero_of_bool Qc_thousand_nonzero) as H1000.
  assert (Hs : Q2Qc (inject_Z (100 - pct))
               = (Q2Qc 100.0 - Q2Qc (inject_Z pct))%Qc).
  { rewrite <- (Qc_shares pct). ring. }
  rewrite Hs. field. repeat split; assumption.
Qed.

End Exact.

(** C10. In exact arithmetic, for every DER, every slider position and
    strictly positive caloric densities of both foods, feeding the planned
    quantities back through the intake analysis gives the target:
    (dry grams / 1000) * dry density + (wet grams / 100) * wet density = DER;
    the analysis stores a total equal to the DER and a calorie difference of
    zero, and its verdict is "on target". *)
Theorem plan_meets_target :
  forall (qpow : Qc -> Qc -> Qc) (w : widgets Qc) (s : session_state Qc)
         (der : Qc),
    current_der s = Some der -> generate_plan w = true ->
    (Q2Qc 0 < dry_food_kcal_per_1000g w)%Qc ->
    (Q2Qc 0 < wet_food_kcal_per_100g w)%Qc ->
    exists (p : feeding_plan Qc) (i : intake_analysis Qc),
      s_feeding_plan (session_after (tab3 (N := rational qpow) w) s) = Some p
      /\ s_intake_analysis
           (session_after (tab2 (N := rational qpow) (feed_plan w p))
              (session_after (tab3 (N := rational qpow) w) s))
         = Some i
      /\ (fp_required_dry_grams p / Q2Qc 1000 * dry_food_kcal_per_1000g w
          + fp_required_wet_grams p / Q2Qc 100 * wet_food_kcal_per_100g w)%Qc
         = der
      /\ ia_total_intake i = der
      /\ ia_calorie_difference i = Q2Qc 0
      /\ classify (N := rational qpow) (ia_calorie_difference i) = on_target.
Proof.
  intros qpow w s der Hd Hg Hdry Hwet.
  rewrite (tab3_rational qpow w s Hd Hg Hdry Hwet).
  eexists. eexists.
  split; [reflexivity | ].
  split.
  { rewrite (@tab2_rational qpow _ _ der); [reflexivity | exact Hd | reflexivity]. }
  cbn [feed_plan click_analyze_intake with_food dry_food_grams wet_food_grams
       dry_food_kcal_per_1000g wet_food_kcal_per_100g
       fp_required_dry_grams fp_required_wet_grams
       ia_total_intake ia_calorie_difference].
  assert (Hdry0 : dry_food_kcal_per_1000g w <> Q2Qc 0)
    by exact (Qc_nonzero_of_bool (Qc_positive_nonzero Hdry)).
  assert (Hwet0 : wet_food_kcal_per_100g w <> Q2Qc 0)
    by exact (Qc_nonzero_of_bool (Qc_positive_nonzero Hwet)).
  pose proof (planned_calories der (wet_food_percentage w) Hdry0 Hwet0)
    as Htotal.
  replace (Q2Qc 1000) with (Q2Qc 1000.0)
    by (apply Qc_is_canon; reflexivity).
  replace (Q2Qc 100) with (Q2Qc 100.0)
    by (apply Qc_is_canon; reflexivity).
  rewrite Htotal.
  split; [reflexivity | ]. split; [reflexivity | ].
  assert (Hzero : (der - der)%Qc = Q2Qc 0) by ring.
  rewrite Hzero. split; [reflexivity | ].
  vm_compute. reflexivity.
Qed.

(** ** The resting energy requirement on the real numbers *)

#[export] Instance real_order : @NumberOrder R real.
Proof.
  split; cbn; intros x y Hlt; unfold R_ltb in Hlt;
    destruct (Rlt_dec x y) as [Hxy | ]; try discriminate.
  - unfold R_leb. destruct (Rle_dec y x); [lra | reflexivity].
  - unfold R_eqb. destruct (Req_dec_T y x); [lra | reflexivity].
Qed.

Lemma literal_three_quarters : Q2R 0.75 = (3 / 4)%R.
Proof. unfold Q2R. cbn [Qnum Qden]. lra. Qed.

(** On the reals the exponent is the real power: 70 * exp (3/4 * ln w). *)
Lemma calculate_rer_real (w : R) (s : session_state R) :
  (0 < w)%R ->
  calculate_rer (N := real) w s
  = (Done (Some (70 * Rpower w (3 / 4))%R), s, []).
Proof.
  intros Hw. run_script. cbn [of_Z lit mul pow leb real].
  unfold R_leb. destruct (Rle_dec w 0); [lra | ].
  now rewrite literal_three_quarters.
Qed.

Lemma Rpower_16_three_quarters : Rpower 16 (3 / 4) = 8%R.
Proof.
  replace 16%R with (Rpower 2 (INR 4)).
  - rewrite Rpower_mult.
    replace (INR 4 * (3 / 4))%R with (INR 3) by (cbn [INR]; lra).
    rewrite Rpower_pow by lra. simpl. lra.
  - rewrite Rpower_pow by lra. simpl. lra.
Qed.

(** A cat of 16 kg rests on 70 * 8 = 560 kcal a day; to the power 1 it
    would be 1120. *)
Example calculate_rer_real_16 :
  calculate_rer (N := real) 16%R (empty_session R)
  = (Done (Some 560%R), empty_session R, []).
Proof.
  rewrite calculate_rer_real by lra.
  rewrite Rpower_16_three_quarters.
  replace (70 * 8)%R with 560%R by lra. reflexivity.
Qed.

(** ** The specification's examples in double precision *)

Example activity_multiplier_examples :
  get_activity_multiplier (N := py_float) 3 false 5 false false
  = lit (Number := py_float) 3.0
  /\ get_activity_multiplier (N := py_float) 10 true 5 false false
     = lit (Number := py_float) 2.0
  /\ get_activity_multiplier (N := py_float) 24 true 6 false false
     = lit (Number := py_float) 0.8
  /\ get_activity_multiplier (N := py_float) 24 true 3 false false
     = lit (Number := py_float) 1.6
  /\ get_activity_multiplier (N := py_float) 24 false 6 false false
     = lit (Number := py_float) 1.0
  /\ get_activity_multiplier (N := py_float) 100 true 3 false false
     = lit (Number := py_float) 1.2
  /\ get_activity_multiplier (N := py_float) 24 true 9 true true
     = lit (Number := py_float) 2.0
  /\ get_activity_multiplier (N := py_float) 24 true 9 false true
     = lit (Number := py_float) 3.0.
Proof. repeat split. Qed.

(** The decimal literals of the script are the doubles CPython reads them
    as. *)
Example float_literals :
  lit (Number := py_float) 0.75 = 0x1.8p-1%float
  /\ lit (Number := py_float) 0.8 = 0x1.999999999999ap-1%float
  /\ lit (Number := py_float) 1.2 = 0x1.3333333333333p+0%float
  /\ lit (Number := py_float) 1.4 = 0x1.6666666666666p+0%float
  /\ lit (Number := py_float) 1.6 = 0x1.999999999999ap+0%float
  /\ lit (Number := py_float) 1.8 = 0x1.ccccccccccccdp+0%float
  /\ lit (Number := py_float) 1000.0 = 1000%float
  /\ of_Z (Number := py_float) (-5) = (-5)%float.
Proof. repeat split. Qed.

(** In double precision the round trip of a plan through the analysis can
    round: here the total comes out one unit in the last place below the
    DER of 250, which is still on target. *)
Example plan_round_trip_rounds :
  exists p : feeding_plan float,
    s_feeding_plan
      (session_after (tab3 (N := py_float) widgets_for_rounding)
         (session_with_der 250%float))
    = Some p
    /\ exists i : intake_analysis float,
        s_intake_analysis
          (session_after
             (tab2 (N := py_float) (feed_plan widgets_for_rounding p))
             (session_after (tab3 (N := py_float) widgets_for_rounding)
                (session_with_der 250%float)))
        = Some i
        /\ PrimFloat.ltb (ia_total_intake i) 250%float = true
        /\ PrimFloat.ltb (-1)%float (ia_calorie_difference i) = true
        /\ classify (N := py_float) (ia_calorie_difference i) = on_target.
Proof.
  eexists. split; [vm_compute; reflexivity | ].
  eexists. split; [vm_compute; reflexivity | ].
  repeat split; vm_compute; reflexivity.
Qed.

(** * The theorems at concrete inputs *)

Lemma get_activity_multiplier_table_witness :
  activity_multiplier_table (N := py_float) 24 true 6 false false
  = Some (get_activity_multiplier (N := py_float) 24 true 6 false false)
  /\ get_activity_multiplier (N := py_float) 24 true 5 false false
     = base_multiplier (N := py_float) 24 true.
Proof.
  split.
  - exact (proj1 (get_activity_multiplier_table (N := py_float)
                    24 true 6 false false)).
  - apply (proj2 (get_activity_multiplier_table (N := py_float)
                    24 true 5 false false)).
    + reflexivity.
    + reflexivity.
    + split; intros H; discriminate H.
Defined.

Lemma calculate_rer_correct_witness :
  calculate_rer (N := py_float) 4%float (empty_session float)
  = (Done (Some (PrimFloat.mul 70 (sqrt_pow 4 0.75))), empty_session float, [])
  /\ calculate_rer (N := py_float) 0%float (empty_session float)
     = (Done None, empty_session float, [StError WeightMustBePositive]).
Proof.
  split.
  - apply (proj1 (calculate_rer_correct (N := py_float)
                    4%float (empty_session float))).
    reflexivity.
  - apply (proj2 (calculate_rer_correct (N := py_float)
                    0%float (empty_session float))).
    reflexivity.
Defined.

Lemma classify_band_witness :
  classify (N := py_float) 15%float = over_target
  /\ classify (N := py_float) (-15)%float = under_target
  /\ classify (N := py_float) 0%float = on_target
  /\ exists i : intake_analysis float,
      s_intake_analysis
        (session_after (tab2 (N := py_float) widgets_for_intake)
           (session_with_der 250%float))
      = Some i
      /\ exists lines : list (ui_call float),
          shown_by (tab2 (N := py_float) widgets_for_intake)
            (session_with_der 250%float)
          = lines ++ verdict_shown (N := py_float)
                       (classify (N := py_float) (ia_calorie_difference i))
                       (ia_calorie_difference i).
Proof.
  destruct (classify_band sqrt_pow) as [Hband [_ [_ Hshown]]].
  split; [ | split; [ | split]].
  - apply (proj1 (Hband 15%float)). reflexivity.
  - apply (proj1 (proj2 (Hband (-15)%float))). reflexivity.
  - apply (proj2 (proj2 (Hband 0%float))). split; reflexivity.
  - apply (Hshown widgets_for_intake (session_with_der 250%float) 250%float);
      reflexivity.
Defined.

(** C4, as stated, fails where both caloric densities are zero: with a DER
    of 300 kcal in the session, the slider at 50 % and both densities at
    zero, tab 3 shows its warning and stores no plan, where the claim has a
    plan of 0 g and 0 g. *)
Lemma plan_refused_without_density :
  current_der (session_with_der 300%float) = Some 300%float
  /\ generate_plan widgets_without_density = true
  /\ wet_food_percentage widgets_without_density = 50%Z
  /\ PrimFloat.leb 0 (dry_food_kcal_per_1000g widgets_without_density) = true
  /\ PrimFloat.leb 0 (wet_food_kcal_per_100g widgets_without_density) = true
  /\ tab3 (N := py_float) widgets_without_density (session_with_der 300%float)
     = (Done tt, session_with_der 300%float,
        [StInfo PlanIntro; StWarning PlanNeedsDensity])
  /\ s_feeding_plan
       (session_after (tab3 (N := py_float) widgets_without_density)
          (session_with_der 300%float))
     <> Some (plan_as_specified (N := py_float) 300%float 50
                (dry_food_kcal_per_1000g widgets_without_density)
                (wet_food_kcal_per_100g widgets_without_density)).
Proof.
  repeat split; try (vm_compute; reflexivity).
  vm_compute. intros H. discriminate H.
Qed.

Lemma plan_feeding_guarded_witness :
  tab3 (N := py_float) widgets_for_plan (session_with_der 300%float)
  = (Done tt,
     set_feeding_plan
       {| fp_wet_food_percentage := 50;
          fp_required_dry_grams := 37.5%float;
          fp_required_wet_grams := 150%float |}
       (session_with_der 300%float),
     [StInfo PlanIntro; StInfo (PlanGoal 300%float);
      StMetric (DryGramsMetric 37.5%float);
      StMetric (WetGramsMetric 150%float);
      StCaption (PlanSplit 50 50)])
  /\ (outcome_of (tab3 (N := py_float) widgets_wet_only)
         (session_with_der 300%float)
       = Done tt
       /\ exists p : feeding_plan float,
           s_feeding_plan
             (session_after (tab3 (N := py_float) widgets_wet_only)
                (session_with_der 300%float))
           = Some p
           /\ fp_required_dry_grams p = 0%float)
  /\ (outcome_of (tab3 (N := py_float) widgets_dry_only)
         (session_with_der 300%float)
       = Done tt
       /\ exists p : feeding_plan float,
           s_feeding_plan
             (session_after (tab3 (N := py_float) widgets_dry_only)
                (session_with_der 300%float))
           = Some p
           /\ fp_required_wet_grams p = 0%float)
  /\ tab3 (N := py_float) widgets_without_density (session_with_der 300%float)
     = (Done tt, session_with_der 300%float,
        [StInfo PlanIntro; StWarning PlanNeedsDensity]).
Proof.
  assert (Hpct : (0 <= 50 <= 100)%Z) by (split; intros H; discriminate H).
  split; [ | split; [ | split]].
  - unfold py_float.
    rewrite (proj1 (plan_feeding_guarded sqrt_pow widgets_for_plan
                      (session_with_der 300%float) eq_refl eq_refl
                Hpct eq_refl eq_refl) eq_refl).
    vm_compute. reflexivity.
  - apply (proj1 (proj2
             (plan_feeding_guarded sqrt_pow widgets_wet_only
                (session_with_der 300%float) eq_refl eq_refl
                Hpct eq_refl eq_refl)));
      reflexivity.
  - apply (proj1 (proj2 (proj2
             (plan_feeding_guarded sqrt_pow widgets_dry_only
                (session_with_der 300%float) eq_refl eq_refl
                Hpct eq_refl eq_refl))));
      reflexivity.
  - apply (proj2 (proj2 (proj2
             (plan_feeding_guarded sqrt_pow widgets_without_density
                (session_with_der 300%float) eq_refl eq_refl
                Hpct eq_refl eq_refl)))).
    reflexivity.
Defined.

Lemma analyze_intake_formulas_witness :
  outcome_of (tab2 (N := py_float) widgets_for_intake)
    (session_with_der 250%float)
  = Done tt
  /\ s_intake_analysis
       (session_after (tab2 (N := py_float) widgets_for_intake)
          (session_with_der 250%float))
     = Some {| ia_dry_food_grams := 50%float;
               ia_dry_food_kcal := 175%float;
               ia_wet_food_grams := 100%float;
               ia_wet_food_kcal := 90%float;
               ia_total_intake := 265%float;
               ia_calorie_difference := 15%float |}.
Proof.
  destruct (proj1 (analyze_intake_formulas sqrt_pow) widgets_for_intake
              (session_with_der 250%float) 250%float eq_refl eq_refl)
    as [Hdone Hstored].
  split; [exact Hdone | ].
  unfold py_float. rewrite Hstored. vm_compute. reflexivity.
Defined.

Lemma der_is_rer_times_multiplier_witness :
  exists e : der_info float,
    s_der_info
      (session_after
         (tab1 (N := py_float) (click_calc_der (default_widgets (N := py_float))))
         (empty_session float))
    = Some e
    /\ di_rer e = PrimFloat.mul 70 (sqrt_pow 4 0.75)
    /\ di_multiplier e = lit (Number := py_float) 1.2
    /\ di_der e = PrimFloat.mul (di_rer e) (di_multiplier e)
    /\ di_water_intake e = di_der e
    /\ energy_consistent (N := py_float)
         (session_after
            (main (N := py_float) (environment_with_font float)
               (click_calc_der (default_widgets (N := py_float))))
            (empty_session float)).
Proof.
  destruct (proj1 der_is_rer_times_multiplier float py_float
              (click_calc_der (default_widgets (N := py_float)))
              (empty_session float) eq_refl eq_refl eq_refl)
    as (e & Hstored & Hrer & Hmult & Hder & Hwater & _).
  exists e.
  split; [exact Hstored | ]. split; [exact Hrer | ].
  split; [exact Hmult | ]. split; [exact Hder | ].
  split; [exact Hwater | ].
  apply (proj1 (proj2 der_is_rer_times_multiplier) float py_float).
  apply reachable_run. apply reachable_empty.
Defined.

Lemma der_required_first_witness :
  tab2 (N := py_float) widgets_for_intake (empty_session float)
  = (Stopped, empty_session float, [StError ComputeDerFirst])
  /\ tab3 (N := py_float) widgets_for_plan (empty_session float)
     = (Done tt, empty_session float,
        [StInfo PlanIntro; StWarning PlanNeedsDer])
  /\ main (N := py_float) (environment_with_font float) widgets_for_intake
       (empty_session float)
     = (Stopped, empty_session float, [StError ComputeDerFirst])
  /\ session_after
       (main (N := py_float) (environment_with_font float) widgets_for_plan)
       (empty_session float)
     = empty_session float.
Proof.
  split; [ | split; [ | split]].
  - apply (proj1 (der_required_first (N := py_float)
                    (environment_with_font float) widgets_for_intake
                    (empty_session float) eq_refl)).
    reflexivity.
  - exact (proj1 (proj2 (der_required_first (N := py_float)
                           (environment_with_font float) widgets_for_plan
                           (empty_session float) eq_refl))).
  - apply (proj1 (proj2 (proj2 (der_required_first (N := py_float)
                           (environment_with_font float) widgets_for_intake
                           (empty_session float) eq_refl))));
      reflexivity.
  - apply (proj2 (proj2 (proj2 (der_required_first (N := py_float)
                           (environment_with_font float) widgets_for_plan
                           (empty_session float) eq_refl)))).
    reflexivity.
Defined.

Lemma recomputation_invalidates_witness :
  (s_der_info
     (session_after
        (tab1 (N := py_float) (click_calc_der (default_widgets (N := py_float))))
        (set_intake_analysis
           (intake_as_specified (N := py_float) 250%float 50%float
              3500%float 100%float 90%float)
           (session_with_der 250%float)))
   = Some (energy_result (N := py_float)
             (click_calc_der (default_widgets (N := py_float))))
   /\ s_intake_analysis
        (session_after
           (tab1 (N := py_float)
              (click_calc_der (default_widgets (N := py_float))))
           (set_intake_analysis
              (intake_as_specified (N := py_float) 250%float 50%float
                 3500%float 100%float 90%float)
              (session_with_der 250%float)))
      = None)
  /\ session_after
       (tab1 (N := py_float)
          (click_calc_der
             (with_cat 0%float 2 0 true 5 false false
                (default_widgets (N := py_float)))))
       (session_with_der 250%float)
     = session_with_der 250%float
  /\ nothing_stale (N := py_float)
       (session_after
          (main (N := py_float) (environment_with_font float)
             widgets_for_intake)
          (empty_session float)).
Proof.
  split; [ | split].
  - destruct (proj1 recomputation_invalidates float py_float
                (environment_with_font float)
                (click_calc_der (default_widgets (N := py_float)))
                (set_intake_analysis
                   (intake_as_specified (N := py_float) 250%float 50%float
                      3500%float 100%float 90%float)
                   (session_with_der 250%float))
                eq_refl eq_refl eq_refl)
      as [[Hstored [Hintake _]] _].
    split; assumption.
  - apply (proj1 (proj2 recomputation_invalidates) float py_float).
    + reflexivity.
    + right. reflexivity.
  - apply (proj2 (proj2 recomputation_invalidates) sqrt_pow).
    apply reachable_run. apply reachable_empty.
Defined.

Lemma report_needs_font_witness :
  generate_diet_report_image (N := py_float) (environment_without_font float)
    None None None None
  = None
  /\ (exists img : image float,
         generate_diet_report_image (N := py_float)
           (environment_with_font float) None None None None
         = Some (png_save (environment_with_font float) img)
         /\ im_size img = (800, 800)%Z)
  /\ existsb (@is_download float)
       (shown_by (tab4 (N := py_float) (environment_without_font float))
          (session_with_energy (N := py_float)
             (default_widgets (N := py_float))))
     = false.
Proof.
  split; [ | split].
  - apply (proj1 (report_needs_font (N := py_float)
                    (environment_without_font float) (empty_session float)
                    None None None None)).
    left. reflexivity.
  - apply (proj1 (proj2 (report_needs_font (N := py_float)
                           (environment_with_font float)
                           (empty_session float) None None None None))).
    reflexivity.
  - apply (proj2 (proj2 (report_needs_font (N := py_float)
                           (environment_without_font float)
                           (session_with_energy (N := py_float)
                              (default_widgets (N := py_float)))
                           None None None None))).
    reflexivity.
Defined.

Lemma plan_meets_target_witness :
  exists (p : feeding_plan Qc) (i : intake_analysis Qc),
    s_feeding_plan
      (session_after (tab3 (N := exact) exact_widgets_for_plan)
         (session_with_der (Q2Qc 300)))
    = Some p
    /\ s_intake_analysis
         (session_after
            (tab2 (N := exact) (feed_plan exact_widgets_for_plan p))
            (session_after (tab3 (N := exact) exact_widgets_for_plan)
               (session_with_der (Q2Qc 300))))
       = Some i
    /\ (fp_required_dry_grams p / Q2Qc 1000
        * dry_food_kcal_per_1000g exact_widgets_for_plan
        + fp_required_wet_grams p / Q2Qc 100
          * wet_food_kcal_per_100g exact_widgets_for_plan)%Qc
       = Q2Qc 300
    /\ ia_total_intake i = Q2Qc 300
    /\ ia_calorie_difference i = Q2Qc 0
    /\ classify (N := exact) (ia_calorie_difference i) = on_target.
Proof.
  apply (plan_meets_target (fun _ _ => Q2Qc 0) exact_widgets_for_plan
           (session_with_der (Q2Qc 300))).
  - reflexivity.
  - reflexivity.
  - vm_compute. reflexivity.
  - vm_compute. reflexivity.
Defined.

(** * Further properties of the script *)

(** ** The activity multiplier *)

Ltac split_ifs :=
  repeat match goal with
         | |- context [if ?c then _ else _] => destruct c eqn:?
         end.

(** X1. Whatever its arguments, [get_activity_multiplier] returns one of
    eight values: 0.8, 1.0, 1.2, 1.4, 1.6, 1.8, 2.0 or 3.0. *)
Theorem activity_multiplier_values :
  forall (A : Type) (N : Number A) (age_months : Z) (neutered : bool) (b : Z)
         (pregnant lactating : bool),
    In (get_activity_multiplier age_months neutered b pregnant lactating)
       [lit 0.8; lit 1.0; lit 1.2; lit 1.4; lit 1.6; lit 1.8; lit 2.0;
        lit 3.0].
Proof.
  intros A N age_months neutered b pregnant lactating.
  unfold get_activity_multiplier. cbn zeta.
  split_ifs; cbn [In]; tauto.
Qed.

Section MultiplierOrder.

Variable fpow : float -> float -> float.

Local Abbreviation B64 := (binary64 fpow).

Local Open Scope Z_scope.

(** X2. In double precision, a higher body condition score never raises
    the multiplier: with everything else equal, bcs1 <= bcs2 gives
    multiplier(bcs2) <= multiplier(bcs1). *)
Theorem activity_multiplier_falls_with_bcs :
  forall (age_months : Z) (neutered : bool) (b1 b2 : Z)
         (pregnant lactating : bool),
    b1 <= b2 ->
    PrimFloat.leb
      (get_activity_multiplier (N := B64) age_months neutered b2
         pregnant lactating)
      (get_activity_multiplier (N := B64) age_months neutered b1
         pregnant lactating)
    = true.
Proof.
  intros age_months neutered b1 b2 pregnant lactating Hb.
  unfold get_activity_multiplier. cbn zeta.
  rewrite !Z.gtb_ltb.
  destruct pregnant; [reflexivity | ].
  destruct lactating; [reflexivity | ].
  destruct (age_months <? 4); [reflexivity | ].
  destruct ((age_months >=? 4) && (age_months <=? 12)); [reflexivity | ].
  destruct ((12 <? age_months) && (age_months <? 84)), neutered;
    destruct (Z.ltb_spec 5 b1), (Z.ltb_spec 5 b2),
      (Z.ltb_spec b1 4), (Z.ltb_spec b2 4);
    try lia; reflexivity.
Qed.

(** X3. In double precision, a neutered cat never gets a higher multiplier
    than an intact cat of the same age, score and condition. *)
Theorem activity_multiplier_neutered_le_intact :
  forall (age_months : Z) (b : Z) (pregnant lactating : bool),
    PrimFloat.leb
      (get_activity_multiplier (N := B64) age_months true b
         pregnant lactating)
      (get_activity_multiplier (N := B64) age_months false b
         pregnant lactating)
    = true.
Proof.
  intros age_months b pregnant lactating.
  unfold get_activity_multiplier. cbn zeta.
  split_ifs; reflexivity.
Qed.

End MultiplierOrder.

Lemma activity_multiplier_falls_with_bcs_witness :
  PrimFloat.leb
    (get_activity_multiplier (N := py_float) 24 true 7 false false)
    (get_activity_multiplier (N := py_float) 24 true 3 false false)
  = true.
Proof.
  apply (activity_multiplier_falls_with_bcs sqrt_pow 24 true (b1 := 3)
           (b2 := 7) false false).
  intros H. discriminate H.
Defined.

(** ** The resting energy requirement on the reals *)

Lemma real_multiplier_positive (age_months : Z) (neutered : bool) (b : Z)
  (pregnant lactating : bool) :
  (0 < get_activity_multiplier (N := real) age_months neutered b
         pregnant lactating)%R.
Proof.
  unfold get_activity_multiplier. cbn zeta. cbn [lit real].
  split_ifs; unfold Q2R; cbn [Qnum Qden]; lra.
Qed.

(** ** The sessions a user can reach *)

Section Reach.

Context {A : Type} {N : Number A}.

Local Open Scope Z_scope.

(** X5. A session a user can reach is the empty one, or holds a DER (a
    number, never [None]) together with the cat's data and the energy
    result: the three keys are set together, so the [is None] test of tabs
    2 and 3 and the defaults of the [.get] calls of tab 4 never apply. *)
Theorem reachable_sessions :
  forall s : session_state A,
    reachable s ->
    s = empty_session A
    \/ exists (d : A) (c : cat_info A) (e : der_info A),
         s_der s = Some (Some d)
         /\ s_cat_info s = Some c
         /\ s_der_info s = Some e.
Proof.
  apply (kept_in_reachable
           (fun s => s = empty_session A
                     \/ exists d c e,
                          s_der s = Some (Some d)
                          /\ s_cat_info s = Some c
                          /\ s_der_info s = Some e)).
  - now left.
  - intros w s H. destruct (tab1_session w s) as [-> | ->]; [exact H | ].
    right. do 3 eexists. repeat split.
  - intros w s H.
    destruct (tab2_session w s) as [-> | (der & i & Hd & _ & ->)];
      [exact H | ].
    destruct H as [-> | (d & c & e & H1 & H2 & H3)]; [discriminate Hd | ].
    right. exists d, c, e. repeat split; assumption.
  - intros w s H.
    destruct (tab3_session w s) as [-> | (der & p & Hd & ->)];
      [exact H | ].
    destruct H as [-> | (d & c & e & H1 & H2 & H3)]; [discriminate Hd | ].
    right. exists d, c, e. repeat split; assumption.
Qed.

End Reach.

Lemma reachable_sessions_witness :
  exists (d : float) (c : cat_info float) (e : der_info float),
    s_der (session_after
             (main (N := py_float) (environment_with_font float)
                (click_calc_der (default_widgets (N := py_float))))
             (empty_session float))
    = Some (Some d)
    /\ s_cat_info (session_after
                     (main (N := py_float) (environment_with_font float)
                        (click_calc_der (default_widgets (N := py_float))))
                     (empty_session float))
       = Some c
    /\ s_der_info (session_after
                     (main (N := py_float) (environment_with_font float)
                        (click_calc_der (default_widgets (N := py_float))))
                     (empty_session float))
       = Some e.
Proof.
  destruct (reachable_sessions (N := py_float)
              (s := session_after
                      (main (N := py_float) (environment_with_font float)
                         (click_calc_der (default_widgets (N := py_float))))
                      (empty_session float)))
    as [Hempty | Hfull].
  - apply reachable_run. apply reachable_empty.
  - apply (f_equal (@s_der_info float)) in Hempty.
    rewrite (main_only_tab1 (N := py_float) (environment_with_font float)
               (click_calc_der (default_widgets (N := py_float)))
               (empty_session float) eq_refl eq_refl) in Hempty.
    unfold session_after in Hempty.
    rewrite (tab1_computes (N := py_float)
               (click_calc_der (default_widgets (N := py_float)))
               (empty_session float) eq_refl eq_refl eq_refl) in Hempty.
    discriminate Hempty.
  - exact Hfull.
Defined.

(** ** How the tabs compose *)

Section Composition.

Context {A : Type} {N : Number A}.

Local Open Scope Z_scope.

(** Tabs 2 and 3 read nothing of the session but the DER, and write nothing
    but their own key. *)
Lemma tab2_effect (w : widgets A) (der : option A) :
  exists stored : option (intake_analysis A),
    forall s : session_state A,
      current_der s = der ->
      session_after (tab2 w) s
      = match stored with
        | Some i => set_intake_analysis i s
        | None => s
        end.
Proof.
  destruct (analyze_intake w) eqn:Ha.
  2:{ exists None. intros s _. run_script. now rewrite Ha. }
  destruct der as [der | ].
  2:{ exists None. intros s H. run_script. now rewrite Ha, H. }
  destruct (eqb (lit 1000.0) (of_Z 0)) eqn:E1.
  { exists None. intros s H. run_script. now rewrite Ha, H, E1. }
  destruct (eqb (lit 100.0) (of_Z 0)) eqn:E2.
  { exists None. intros s H. run_script. now rewrite Ha, H, E1, E2. }
  eexists (Some _). intros s H. run_script. rewrite Ha, H, E1, E2.
  cbv beta iota. destruct (classify _); reflexivity.
Qed.

Lemma tab3_effect (w : widgets A) (der : option A) :
  exists stored : option (feeding_plan A),
    forall s : session_state A,
      current_der s = der ->
      session_after (tab3 w) s
      = match stored with
        | Some p => set_feeding_plan p s
        | None => s
        end.
Proof.
  destruct der as [der | ].
  2:{ exists None. intros s H. run_script. now rewrite H. }
  destruct (eqb (dry_food_kcal_per_1000g w) (of_Z 0)) eqn:Edry;
    destruct (eqb (wet_food_kcal_per_100g w) (of_Z 0)) eqn:Ewet;
    destruct (generate_plan w) eqn:Hg;
    destruct (eqb (lit 100.0) (of_Z 0)) eqn:E;
    destruct (ltb (of_Z 0) (dry_food_kcal_per_1000g w)) eqn:Hdry;
    destruct (ltb (of_Z 0) (wet_food_kcal_per_100g w)) eqn:Hwet;
    first
      [ exists None; intros s H; run_script;
        rewrite H, ?Edry, ?Ewet, ?Hg, ?E, ?Hdry, ?Hwet; reflexivity
      | eexists (Some _); intros s H; run_script;
        rewrite H, ?Edry, ?Ewet, ?Hg, ?E, ?Hdry, ?Hwet; reflexivity ].
Qed.

(** X6. Clicking a button twice changes nothing more than clicking it once:
    each of the tabs 1, 2 and 3, run again on the session it has left and
    with the same widgets, leaves that session as it is. *)
Theorem tabs_idempotent :
  forall (w : widgets A) (s : session_state A),
    session_after (tab1 w) (session_after (tab1 w) s)
    = session_after (tab1 w) s
    /\ session_after (tab2 w) (session_after (tab2 w) s)
       = session_after (tab2 w) s
    /\ session_after (tab3 w) (session_after (tab3 w) s)
       = session_after (tab3 w) s.
Proof.
  intros w s. split; [ | split].
  - destruct (tab1_session w s) as [H | H]; rewrite H.
    + exact H.
    + destruct (tab1_session w (session_with_energy w)) as [H' | H'];
        exact H'.
  - destruct (tab2_effect w (current_der s)) as [[i | ] H].
    + rewrite (H s eq_refl). now rewrite (H (set_intake_analysis i s) eq_refl).
    + now rewrite !(H s eq_refl).
  - destruct (tab3_effect w (current_der s)) as [[p | ] H].
    + rewrite (H s eq_refl). now rewrite (H (set_feeding_plan p s) eq_refl).
    + now rewrite !(H s eq_refl).
Qed.

(** X7. The intake analysis and the feeding plan do not depend on each
    other: running tab 2 and then tab 3 leaves the same session as running
    tab 3 and then tab 2, whatever the widgets of the two runs. *)
Theorem analysis_and_plan_commute :
  forall (w2 w3 : widgets A) (s : session_state A),
    session_after (tab3 w3) (session_after (tab2 w2) s)
    = session_after (tab2 w2) (session_after (tab3 w3) s).
Proof.
  intros w2 w3 s.
  destruct (tab2_effect w2 (current_der s)) as [[i | ] H2];
    destruct (tab3_effect w3 (current_der s)) as [[p | ] H3];
    rewrite (H2 s eq_refl), (H3 s eq_refl).
  - now rewrite (H3 (set_intake_analysis i s) eq_refl),
      (H2 (set_feeding_plan p s) eq_refl).
  - now rewrite (H3 (set_intake_analysis i s) eq_refl), (H2 s eq_refl).
  - now rewrite (H2 (set_feeding_plan p s) eq_refl).
  - now rewrite (H2 s eq_refl).
Qed.

End Composition.

(** ** The download button *)

Section Download.

Context {A : Type} {N : Number A}.

Lemma no_download_in_overview (s : session_state A)
  (data : list Byte.byte) (date : datetime) :
  ~ In (StDownloadButton data date) (report_overview s).
Proof.
  unfold report_overview.
  destruct (s_intake_analysis s), (s_feeding_plan s); cbn;
    intuition discriminate.
Qed.

(** X8. Tab 4 shows a download button exactly when an energy result is in
    the session, the font file exists and the renderer returns bytes that
    are not empty; the button then carries exactly those bytes and the date
    of the run. *)
Theorem download_button_shown :
  forall (e : environment A) (s : session_state A)
         (data : list Byte.byte) (date : datetime),
    In (StDownloadButton data date) (shown_by (tab4 e) s)
    <-> (s_der_info s <> None
         /\ font_exists e = true
         /\ data <> []
         /\ generate_diet_report_image e (s_cat_info s) (s_der_info s)
              (s_intake_analysis s) (s_feeding_plan s)
            = Some data
         /\ date = now e).
Proof.
  intros e s data date. unfold shown_by.
  destruct (s_der_info s) as [d | ] eqn:Hd.
  2:{ rewrite (tab4_without_der e s Hd). cbn. split.
      - intros [H | []]. discriminate H.
      - intros [H _]. now contradiction H. }
  destruct (font_exists e) eqn:Hf.
  2:{ rewrite (tab4_without_font e s Hd Hf). cbn [snd]. split.
      - intros H. apply in_app_or in H. destruct H as [H | [H | []]].
        + now apply no_download_in_overview in H.
        + discriminate H.
      - intros (_ & H & _). discriminate H. }
  rewrite (tab4_with_font e s Hd Hf). cbn [snd].
  unfold download_shown. rewrite Hd.
  destruct (generate_diet_report_image e (s_cat_info s) (Some d)
              (s_intake_analysis s) (s_feeding_plan s))
    as [[ | b bs] | ]; split.
  - intros H. apply in_app_or in H. destruct H as [H | [H | []]].
    + now apply no_download_in_overview in H.
    + discriminate H.
  - intros (_ & _ & Hne & Hdata & _). injection Hdata as <-.
    now contradiction Hne.
  - intros H. apply in_app_or in H. destruct H as [H | [H | [H | []]]].
    + now apply no_download_in_overview in H.
    + discriminate H.
    + injection H as <- <-. repeat split; discriminate.
  - intros (_ & _ & _ & Hdata & ->). injection Hdata as <-.
    apply in_or_app. right. right. now left.
  - intros H. apply in_app_or in H. destruct H as [H | [H | []]].
    + now apply no_download_in_overview in H.
    + discriminate H.
  - intros (_ & _ & _ & Hdata & _). discriminate Hdata.
Qed.

End Download.

Lemma download_button_shown_witness :
  In (StDownloadButton png_signature noon)
     (shown_by (tab4 (N := py_float) (environment_with_font float))
        (session_with_energy (N := py_float)
           (default_widgets (N := py_float)))).
Proof.
  apply (proj2 (download_button_shown (N := py_float)
                  (environment_with_font float)
                  (session_with_energy (N := py_float)
                     (default_widgets (N := py_float)))
                  png_signature noon)).
  repeat split; try discriminate.
Defined.

(** ** Whole runs in double precision *)

Section RunsGeneric.

Context {A : Type} {N : Number A}.

Lemma outcome_of_bind {X Y : Type} (m : script A X) (f : X -> script A Y)
  (s : session_state A) :
  outcome_of (bind m f) s
  = match outcome_of m s with
    | Done x => outcome_of (f x) (session_after m s)
    | Stopped => Stopped
    | Raised e => Raised e
    end.
Proof.
  unfold session_after, outcome_of, bind.
  destruct (m s) as [[[x | | e] s1] out1]; cbn; try reflexivity.
  now destruct (f x s1) as [[r s2] out2].
Qed.

Lemma tab1_outcome (w : widgets A) (s : session_state A) :
  outcome_of (tab1 w) s = Done tt.
Proof.
  unfold outcome_of.
  destruct (calc_der w) eqn:Hc; [ | now rewrite tab1_idle].
  destruct (Z.leb_spec (age_months_of w) 0) as [Hage | Hage];
    [now rewrite tab1_rejects_age | ].
  destruct (leb (weight w) (of_Z 0)) eqn:Hw.
  - now rewrite tab1_rejects_weight.
  - now rewrite tab1_computes.
Qed.

Lemma tab4_outcome (e : environment A) (s : session_state A) :
  outcome_of (tab4 e) s = Done tt /\ session_after (tab4 e) s = s.
Proof.
  destruct (tab4_keeps_session e s) as [out H].
  unfold outcome_of, session_after. now rewrite H.
Qed.

End RunsGeneric.

Section RunsBinary64.

Variable fpow : float -> float -> float.

Local Abbreviation B64 := (binary64 fpow).

Local Open Scope Z_scope.

Lemma tab2_outcome_binary64 (w : widgets float) (s : session_state float) :
  outcome_of (tab2 (N := B64) w) s
  = match current_der s with
    | Some _ => Done tt
    | None => if analyze_intake w then Stopped else Done tt
    end
  /\ (current_der s = None -> session_after (tab2 (N := B64) w) s = s).
Proof.
  unfold outcome_of, session_after.
  destruct (analyze_intake w) eqn:Ha.
  - destruct (current_der s) as [der | ] eqn:Hd.
    + rewrite (tab2_binary64 fpow w s Hd Ha). split; [reflexivity | ].
      discriminate.
    + now rewrite (tab2_without_der w s Hd Ha).
  - rewrite (tab2_idle w s Ha). now destruct (current_der s).
Qed.

Lemma tab3_outcome_binary64 (w : widgets float) (s : session_state float) :
  outcome_of (tab3 (N := B64) w) s = Done tt
  /\ (current_der s = None -> session_after (tab3 (N := B64) w) s = s)
  /\ (generate_plan w = false -> session_after (tab3 (N := B64) w) s = s).
Proof.
  unfold outcome_of, session_after.
  destruct (generate_plan w) eqn:Hg.
  2:{ destruct (tab3_idle (N := B64) w s Hg) as [out ->]. now repeat split. }
  destruct (current_der s) as [der | ] eqn:Hd.
  2:{ rewrite (tab3_without_der w s Hd). now repeat split. }
  destruct (PrimFloat.eqb (dry_food_kcal_per_1000g w) 0
            && PrimFloat.eqb (wet_food_kcal_per_100g w) 0) eqn:Hz.
  - rewrite (tab3_without_density (N := B64) w s Hd Hz).
    repeat split; discriminate.
  - rewrite (tab3_binary64 fpow w s Hd Hg Hz). repeat split; discriminate.
Qed.

Lemma main_outcome_binary64 (e : environment float) (w : widgets float)
  (s : session_state float) :
  outcome_of (main (N := B64) e w) s
  = match current_der (session_after (tab1 (N := B64) w) s) with
    | Some _ => Done tt
    | None => if analyze_intake w then Stopped else Done tt
    end.
Proof.
  unfold main. rewrite outcome_of_bind, tab1_outcome.
  generalize (session_after (tab1 (N := B64) w) s). intros s1.
  rewrite outcome_of_bind.
  rewrite (proj1 (tab2_outcome_binary64 w s1)).
  assert (Hrest : outcome_of (tab3 (N := B64) w;; tab4 (N := B64) e)
                    (session_after (tab2 (N := B64) w) s1) = Done tt).
  { rewrite outcome_of_bind.
    rewrite (proj1 (tab3_outcome_binary64 w _)).
    apply tab4_outcome. }
  destruct (current_der s1); [exact Hrest | ].
  destruct (analyze_intake w); [reflexivity | exact Hrest].
Qed.

Lemma main_session_binary64 (e : environment float) (w : widgets float)
  (s : session_state float) :
  session_after (main (N := B64) e w) s
  = session_after (tab3 (N := B64) w)
      (session_after (tab2 (N := B64) w)
         (session_after (tab1 (N := B64) w) s)).
Proof.
  unfold main. rewrite session_after_bind, tab1_outcome.
  generalize (session_after (tab1 (N := B64) w) s). intros s1.
  rewrite session_after_bind.
  destruct (tab2_outcome_binary64 w s1) as [Hout Hkeep]. rewrite Hout.
  assert (Hrest : session_after (tab3 (N := B64) w;; tab4 (N := B64) e)
                    (session_after (tab2 (N := B64) w) s1)
                  = session_after (tab3 (N := B64) w)
                      (session_after (tab2 (N := B64) w) s1)).
  { rewrite session_after_bind.
    rewrite (proj1 (tab3_outcome_binary64 w _)).
    apply tab4_outcome. }
  destruct (current_der s1) eqn:Hd; [exact Hrest | ].
  destruct (analyze_intake w); [ | exact Hrest].
  rewrite (Hkeep eq_refl).
  symmetry. exact (proj1 (proj2 (tab3_outcome_binary64 w s1)) Hd).
Qed.

(** X9. In double precision no run of the script raises an exception: a
    run ends normally, or is stopped by tab 2 when the analysis is asked for
    and no DER is there after tab 1; and the session it leaves is the one
    tabs 1, 2 and 3 leave in turn, so the stop loses no update. *)
Theorem main_run_binary64 :
  forall (e : environment float) (w : widgets float) (s : session_state float),
    outcome_of (main (N := B64) e w) s
    = match current_der (session_after (tab1 (N := B64) w) s) with
      | Some _ => Done tt
      | None => if analyze_intake w then Stopped else Done tt
      end
    /\ session_after (main (N := B64) e w) s
       = session_after (tab3 (N := B64) w)
           (session_after (tab2 (N := B64) w)
              (session_after (tab1 (N := B64) w) s)).
Proof.
  intros e w s. split.
  - apply main_outcome_binary64.
  - apply main_session_binary64.
Qed.

End RunsBinary64.

Section Clicks.

Variable fpow : float -> float -> float.

Local Abbreviation B64 := (binary64 fpow).

Local Open Scope Z_scope.

Lemma float_above_tenth_positive (x : float) :
  PrimFloat.leb (float_of_Q 0.1) x = true -> PrimFloat.leb x 0 = false.
Proof.
  rewrite !FloatAxioms.leb_spec.
  set (tenth := Prim2SF (float_of_Q 0.1)). vm_compute in tenth.
  set (zero := Prim2SF 0%float). vm_compute in zero.
  subst tenth zero.
  destruct (Prim2SF x) as [[] | [] | | [] m e];
    cbv beta iota delta [SFleb SFcompare]; congruence.
Qed.

Lemma widgets_in_range_weight (w : widgets float) :
  widgets_in_range w = true ->
  PrimFloat.leb (float_of_Q 0.1) (weight w) = true
  /\ 0 <= age_years w /\ 0 <= age_months_part w.
Proof.
  unfold widgets_in_range. intros H.
  repeat (apply andb_prop in H; destruct H as [H ?]).
  repeat split; [assumption | lia | lia].
Qed.

(** X10. For the values the widgets let through, the button of tab 1 fails
    in one case only, an age of 0 years and 0 months; in every other case it
    computes and stores the energy result, and the weight error cannot
    occur. *)
Theorem tab1_within_widget_ranges :
  forall (w : widgets float) (s : session_state float),
    widgets_in_range w = true -> calc_der w = true ->
    tab1 (N := B64) w s
    = if (age_years w =? 0) && (age_months_part w =? 0)
      then (Done tt, s, [StError AgeMustBePositive])
      else (Done tt, session_with_energy (N := B64) w,
            energy_shown (energy_result (N := B64) w)).
Proof.
  intros w s Hr Hc.
  destruct (widgets_in_range_weight w Hr) as (Hw & Hy & Hm).
  destruct (Z.eqb_spec (age_years w) 0) as [Hy0 | Hy0];
    [destruct (Z.eqb_spec (age_months_part w) 0) as [Hm0 | Hm0] | ];
    cbn [andb].
  - apply tab1_rejects_age; [exact Hc | ]. unfold age_months_of. lia.
  - apply tab1_computes; [exact Hc | unfold age_months_of; lia | ].
    exact (float_above_tenth_positive Hw).
  - apply tab1_computes; [exact Hc | unfold age_months_of; lia | ].
    exact (float_above_tenth_positive Hw).
Qed.

(** X11. Three clicks in order -- compute the DER, analyse the intake, make
    the plan -- with a weight that is not at or below zero, an age above
    zero months and caloric densities not both zero, leave a session with
    the energy result of the widgets and the analysis and the plan computed
    against its DER, whatever the session was before. *)
Theorem three_clicks :
  forall (e1 e2 e3 : environment float) (w : widgets float)
         (s : session_state float),
    PrimFloat.leb (weight w) 0 = false ->
    0 < age_months_of w ->
    PrimFloat.eqb (dry_food_kcal_per_1000g w) 0
    && PrimFloat.eqb (wet_food_kcal_per_100g w) 0 = false ->
    session_after (main (N := B64) e3 (click_generate_plan w))
      (session_after (main (N := B64) e2 (click_analyze_intake w))
         (session_after (main (N := B64) e1 (click_calc_der w)) s))
    = {| s_der := Some (Some (di_der (energy_result (N := B64) w)));
         s_cat_info := Some (cat_of w);
         s_der_info := Some (energy_result (N := B64) w);
         s_intake_analysis :=
           Some (intake_as_specified (N := B64)
                   (di_der (energy_result (N := B64) w))
                   (dry_food_grams w) (dry_food_kcal_per_1000g w)
                   (wet_food_grams w) (wet_food_kcal_per_100g w));
         s_feeding_plan :=
           Some (plan_as_specified (N := B64)
                   (di_der (energy_result (N := B64) w))
                   (wet_food_percentage w)
                   (dry_food_kcal_per_1000g w)
                   (wet_food_kcal_per_100g w)) |}.
Proof.
  intros e1 e2 e3 w s Hw Hage Hz.
  rewrite !main_session_binary64.
  (* the tabs whose button is not clicked leave the session as it is *)
  assert (Htab1 : forall s0,
             session_after (tab1 (N := B64) (click_analyze_intake w)) s0 = s0).
  { intros s0. unfold session_after. now rewrite tab1_idle. }
  assert (Htab2 : forall s0,
             session_after (tab2 (N := B64) (click_calc_der w)) s0 = s0).
  { intros s0. unfold session_after. now rewrite tab2_idle. }
  assert (Htab3 : forall s0,
             session_after (tab3 (N := B64) (click_calc_der w)) s0 = s0).
  { intros s0.
    exact (proj2 (proj2 (tab3_outcome_binary64 fpow (click_calc_der w) s0))
             eq_refl). }
  (* the first click *)
  assert (H1 : session_after (tab1 (N := B64) (click_calc_der w)) s
               = session_with_energy (N := B64) w).
  { unfold session_after.
    now rewrite (tab1_computes (N := B64) (click_calc_der w) s
                   eq_refl Hage Hw). }
  rewrite H1. rewrite ?Htab2, ?Htab3, ?Htab1.
  (* the second click *)
  assert (H2 : session_after (tab2 (N := B64) (click_analyze_intake w))
                 (session_with_energy (N := B64) w)
               = set_intake_analysis
                   (intake_as_specified (N := B64)
                      (di_der (energy_result (N := B64) w))
                      (dry_food_grams w) (dry_food_kcal_per_1000g w)
                      (wet_food_grams w) (wet_food_kcal_per_100g w))
                   (session_with_energy (N := B64) w)).
  { unfold session_after.
    now rewrite (tab2_binary64 fpow (click_analyze_intake w)
                   (session_with_energy (N := B64) w) eq_refl eq_refl). }
  rewrite H2.
  (* the third click *)
  unfold session_after.
  match goal with
  | |- context [tab3 _ ?s0] =>
      rewrite (tab3_binary64 fpow (click_generate_plan w) s0
                 (der := di_der (energy_result (N := B64) w))
                 eq_refl eq_refl Hz)
  end.
  reflexivity.
Qed.

End Clicks.

Lemma tab1_within_widget_ranges_witness :
  tab1 (N := py_float) (click_calc_der (default_widgets (N := py_float)))
    (empty_session float)
  = (Done tt,
     session_with_energy (N := py_float)
       (click_calc_der (default_widgets (N := py_float))),
     energy_shown
       (energy_result (N := py_float)
          (click_calc_der (default_widgets (N := py_float)))))
  /\ tab1 (N := py_float)
       (click_calc_der
          (with_cat 4%float 0 0 true 5 false false
             (default_widgets (N := py_float))))
       (empty_session float)
     = (Done tt, empty_session float, [StError AgeMustBePositive]).
Proof.
  split.
  - exact (tab1_within_widget_ranges sqrt_pow
             (click_calc_der (default_widgets (N := py_float)))
             (empty_session float) eq_refl eq_refl).
  - exact (tab1_within_widget_ranges sqrt_pow
             (click_calc_der
                (with_cat 4%float 0 0 true 5 false false
                   (default_widgets (N := py_float))))
             (empty_session float) eq_refl eq_refl).
Defined.

Lemma three_clicks_witness :
  s_feeding_plan
    (session_after
       (main (N := py_float) (environment_with_font float)
          (click_generate_plan widgets_for_plan))
       (session_after
          (main (N := py_float) (environment_with_font float)
             (click_analyze_intake widgets_for_plan))
          (session_after
             (main (N := py_float) (environment_with_font float)
                (click_calc_der widgets_for_plan))
             (empty_session float))))
  = Some (plan_as_specified (N := py_float)
            (di_der (energy_result (N := py_float) widgets_for_plan))
            50 4000%float 100%float).
Proof.
  unfold py_float.
  rewrite (three_clicks sqrt_pow (environment_with_font float)
             (environment_with_font float) (environment_with_font float)
             widgets_for_plan (empty_session float)
             eq_refl eq_refl eq_refl).
  reflexivity.
Defined.

(** ** The DER on the reals *)

(** X12. On the real numbers every DER a user can have in the session is
    above zero: tab 1 stores 70 * w ** 0.75 times a multiplier of at least
    0.8, and nothing else writes the key. *)
Theorem der_positive_on_reals :
  forall s : session_state R,
    reachable (N := real) s ->
    forall d : R, current_der s = Some d -> (0 < d)%R.
Proof.
  apply (kept_in_reachable (N := real)
           (fun s => forall d : R, current_der s = Some d -> (0 < d)%R)).
  - intros d H. discriminate H.
  - intros w s IH. destruct (tab1_session (N := real) w s) as [-> | ->];
      [exact IH | ].
    intros d H. injection H as <-. cbn [energy_result di_der mul real].
    apply Rmult_lt_0_compat; [ | apply real_multiplier_positive].
    apply Rmult_lt_0_compat; [cbn; lra | ].
    unfold pow, real, Rpower. apply exp_pos.
  - intros w s IH.
    destruct (tab2_session (N := real) w s) as [-> | (der & i & _ & _ & ->)];
      exact IH.
  - intros w s IH.
    destruct (tab3_session (N := real) w s) as [-> | (der & p & _ & ->)];
      exact IH.
Qed.

Lemma der_positive_on_reals_witness :
  (0 < di_der (energy_result (N := real)
                 (click_calc_der (default_widgets (N := real)))))%R.
Proof.
  apply (der_positive_on_reals
           (s := session_after
                   (main (N := real) (environment_with_font R)
                      (click_calc_der (default_widgets (N := real))))
                   (empty_session R))).
  - apply reachable_run. apply reachable_empty.
  - rewrite (main_only_tab1 (N := real) (environment_with_font R)
               (click_calc_der (default_widgets (N := real)))
               (empty_session R) eq_refl eq_refl).
    unfold session_after.
    rewrite (tab1_computes (N := real)
               (click_calc_der (default_widgets (N := real)))
               (empty_session R) eq_refl eq_refl).
    + reflexivity.
    + cbn. unfold R_leb, Q2R. cbn [Qnum Qden].
      match goal with
      | |- context [Rle_dec ?a ?b] => destruct (Rle_dec a b)
      end; [lra | reflexivity].
Defined.

(** ** The layout of the report image *)

Section Layout.

Context {A : Type} {N : Number A}.

Local Open Scope Z_scope.

Lemma generate_diet_report_image_draws (e : environment A)
  (cat : option (cat_info A)) (der : option (der_info A))
  (intake : option (intake_analysis A)) (plan : option (feeding_plan A))
  (f48 f32 f24 f16 : font) :
  truetype e 48 = Some f48 -> truetype e 32 = Some f32 ->
  truetype e 24 = Some f24 -> truetype e 16 = Some f16 ->
  generate_diet_report_image e cat der intake plan
  = Some (png_save e
            (report_image f48 f32 f24 f16 (now e) cat der intake plan)).
Proof.
  intros H48 H32 H24 H16. unfold generate_diet_report_image.
  rewrite H48, H32, H24, H16. reflexivity.
Qed.

(** X13. When the four sizes of the font load, the bytes the renderer
    returns are the encoding of an 800 x 800 image on which every text is
    anchored inside the canvas, and which has 11 texts, 3 more when an
    intake analysis is given and 4 more when a feeding plan is given. *)
Theorem report_drawn_on_canvas :
  forall (e : environment A)
         (cat : option (cat_info A)) (der : option (der_info A))
         (intake : option (intake_analysis A))
         (plan : option (feeding_plan A))
         (f48 f32 f24 f16 : font),
    truetype e 48 = Some f48 -> truetype e 32 = Some f32 ->
    truetype e 24 = Some f24 -> truetype e 16 = Some f16 ->
    generate_diet_report_image e cat der intake plan
    = Some (png_save e
              (report_image f48 f32 f24 f16 (now e) cat der intake plan))
    /\ im_size (report_image f48 f32 f24 f16 (now e) cat der intake plan)
       = (800, 800)
    /\ forallb (@on_canvas A)
         (im_drawn (report_image f48 f32 f24 f16 (now e) cat der intake plan))
       = true
    /\ length
         (im_drawn (report_image f48 f32 f24 f16 (now e) cat der intake plan))
       = (11 + match intake with Some _ => 3 | None => 0 end
          + match plan with Some _ => 4 | None => 0 end)%nat.
Proof.
  intros e cat der intake plan f48 f32 f24 f16 H48 H32 H24 H16.
  split; [now apply generate_diet_report_image_draws | ].
  split; [reflexivity | ].
  destruct intake, plan; split; vm_compute; reflexivity.
Qed.

(** X14. The sections of the report follow one another without a gap: the
    intake section is drawn exactly when an intake analysis is given and the
    plan section exactly when a feeding plan is given; the plan's header
    stands at y = 630 after an intake section and at y = 460 without one;
    and every text but the two of the footer, which are at y = 760, is at
    y = 740 or above it. *)
Theorem report_sections :
  forall (f48 f32 f24 f16 : font) (timestamp : datetime)
         (cat : option (cat_info A)) (der : option (der_info A))
         (intake : option (intake_analysis A))
         (plan : option (feeding_plan A)),
    existsb (@is_intake_header A)
      (report_lines f48 f32 f24 f16 timestamp cat der intake plan)
    = match intake with Some _ => true | None => false end
    /\ existsb (@is_plan_header A)
         (report_lines f48 f32 f24 f16 timestamp cat der intake plan)
       = match plan with Some _ => true | None => false end
    /\ forall d : draw_text A,
        In d (report_lines f48 f32 f24 f16 timestamp cat der intake plan) ->
        (is_plan_header d = true ->
         line_y d = match intake with Some _ => 630 | None => 460 end)
        /\ (if is_footer_line d then line_y d = 760 else line_y d <= 740).
Proof.
  intros f48 f32 f24 f16 timestamp cat der intake plan.
  split; [destruct intake, plan; vm_compute; reflexivity | ].
  split; [destruct intake, plan; vm_compute; reflexivity | ].
  intros d Hin.
  destruct intake, plan;
    match type of Hin with
    | In _ ?lines =>
        let drawn := eval vm_compute in lines in
        replace lines with drawn in Hin by (vm_compute; reflexivity)
    end;
    repeat (destruct Hin as [<- | Hin];
            [split; vm_compute;
             [intros H; first [discriminate H | reflexivity]
             | first [reflexivity | intros H; discriminate H] ]
            | ]);
    contradiction Hin.
Qed.

End Layout.

Lemma report_drawn_on_canvas_witness :
  generate_diet_report_image (N := py_float) (environment_with_font float)
    None None None None
  = Some png_signature
  /\ length
       (im_drawn
          (report_image (N := py_float) {| font_size := 48 |}
             {| font_size := 32 |} {| font_size := 24 |}
             {| font_size := 16 |} noon None None None None))
     = 11%nat.
Proof.
  destruct (report_drawn_on_canvas (N := py_float)
              (environment_with_font float) None None None None
              (f48 := {| font_size := 48 |}) (f32 := {| font_size := 32 |})
              (f24 := {| font_size := 24 |}) (f16 := {| font_size := 16 |})
              eq_refl eq_refl eq_refl eq_refl)
    as (Hbytes & _ & _ & Hlength).
  split; [exact Hbytes | exact Hlength].
Defined.

Lemma report_sections_witness :
  line_y (A := float)
    {| dt_xy := (50, 460)%Z; dt_text := PlanHeader;
       dt_font := {| font_size := 32 |}; dt_fill := (70, 130, 180)%Z;
       dt_anchor := anchor_la |}
  = 460%Z
  /\ (line_y (A := float)
        {| dt_xy := (50, 460)%Z; dt_text := PlanHeader;
           dt_font := {| font_size := 32 |}; dt_fill := (70, 130, 180)%Z;
           dt_anchor := anchor_la |}
      <= 740)%Z.
Proof.
  pose proof (proj2 (proj2
                (report_sections (N := py_float) {| font_size := 48 |}
                   {| font_size := 32 |} {| font_size := 24 |}
                   {| font_size := 16 |} noon None None None
                   (Some {| fp_wet_food_percentage := 50;
                            fp_required_dry_grams := 37.5%float;
                            fp_required_wet_grams := 150%float |})))
                {| dt_xy := (50, 460)%Z; dt_text := PlanHeader;
                   dt_font := {| font_size := 32 |};
                   dt_fill := (70, 130, 180)%Z;
                   dt_anchor := anchor_la |}) as H.
  destruct H as [Hheader Hbody].
  - vm_compute. do 9 right. left. reflexivity.
  - split; [exact (Hheader eq_refl) | exact Hbody].
Defined.

(** ** The feeding plan in exact arithmetic *)

Section ExactPlan.

Variable qpow : Qc -> Qc -> Qc.

Local Abbreviation RAT := (rational qpow).

Lemma Qc_nonneg_mult (a b : Qc) :
  (Q2Qc 0 <= a)%Qc -> (Q2Qc 0 <= b)%Qc -> (Q2Qc 0 <= a * b)%Qc.
Proof.
  intros Ha Hb. rewrite <- (Qcmult_0_l b).
  now apply Qcmult_le_compat_r.
Qed.

Lemma Qc_of_Z_nonneg (z : Z) :
  (0 <= z)%Z -> (Q2Qc 0 <= Q2Qc (inject_Z z))%Qc.
Proof.
  intros Hz. unfold Qcle. cbn [this Q2Qc]. rewrite !Qred_correct.
  unfold Qle, inject_Z. cbn [Qnum Qden]. lia.
Qed.

Lemma Qc_ten_nonneg : (Q2Qc 0 <= Q2Qc 10)%Qc.
Proof. vm_compute. intros H. discriminate H. Qed.

Lemma Qc_nonneg_of_product (x d c : Qc) :
  (Q2Qc 0 < d)%Qc -> (x * d)%Qc = c -> (Q2Qc 0 <= c)%Qc ->
  (Q2Qc 0 <= x)%Qc.
Proof.
  intros Hd Heq Hc. apply (Qcmult_lt_0_le_reg_r _ _ d Hd).
  now rewrite Qcmult_0_l, Heq.
Qed.

(** X16. In exact arithmetic, for a DER of at least zero, a slider between
    0 and 100 and positive caloric densities, the plan never recommends a
    negative quantity; with the slider at 0 it recommends no wet food and
    with the slider at 100 no dry food. *)
Theorem plan_quantities_nonnegative :
  forall (w : widgets Qc) (s : session_state Qc) (der : Qc),
    current_der s = Some der -> generate_plan w = true ->
    (Q2Qc 0 <= der)%Qc ->
    (0 <= wet_food_percentage w <= 100)%Z ->
    (Q2Qc 0 < dry_food_kcal_per_1000g w)%Qc ->
    (Q2Qc 0 < wet_food_kcal_per_100g w)%Qc ->
    exists p : feeding_plan Qc,
      s_feeding_plan (session_after (tab3 (N := RAT) w) s) = Some p
      /\ (Q2Qc 0 <= fp_required_dry_grams p)%Qc
      /\ (Q2Qc 0 <= fp_required_wet_grams p)%Qc
      /\ (wet_food_percentage w = 0%Z -> fp_required_wet_grams p = Q2Qc 0)
      /\ (wet_food_percentage w = 100%Z -> fp_required_dry_grams p = Q2Qc 0).
Proof.
  intros w s der Hd Hg Hder Hpct Hdry Hwet.
  rewrite (tab3_rational qpow w s Hd Hg Hdry Hwet).
  eexists. split; [reflexivity | ].
  cbn [fp_required_dry_grams fp_required_wet_grams].
  assert (Hdry0 : dry_food_kcal_per_1000g w <> Q2Qc 0)
    by exact (Qc_nonzero_of_bool (Qc_positive_nonzero Hdry)).
  assert (Hwet0 : wet_food_kcal_per_100g w <> Q2Qc 0)
    by exact (Qc_nonzero_of_bool (Qc_positive_nonzero Hwet)).
  pose proof (Qc_nonzero_of_bool Qc_hundred_nonzero) as H100.
  pose proof (Qc_nonzero_of_bool Qc_thousand_nonzero) as H1000.
  assert (H10 : (Q2Qc 1000.0 / Q2Qc 100.0)%Qc = Q2Qc 10)
    by (apply Qc_is_canon; reflexivity).
  split; [ | split; [ | split]].
  - apply (Qc_nonneg_of_product
             (d := dry_food_kcal_per_1000g w)
             (c := (der * Q2Qc (inject_Z (100 - wet_food_percentage w))
                    * Q2Qc 10)%Qc) Hdry).
    + rewrite <- H10. field. split; assumption.
    + apply Qc_nonneg_mult; [apply Qc_nonneg_mult | exact Qc_ten_nonneg].
      * exact Hder.
      * apply Qc_of_Z_nonneg. lia.
  - apply (Qc_nonneg_of_product
             (d := wet_food_kcal_per_100g w)
             (c := (der * Q2Qc (inject_Z (wet_food_percentage w)))%Qc) Hwet).
    + field. split; assumption.
    + apply Qc_nonneg_mult; [exact Hder | ].
      apply Qc_of_Z_nonneg. lia.
  - intros ->. change (Q2Qc (inject_Z 0)) with (Q2Qc 0).
    field. split; assumption.
  - intros ->. change (Q2Qc (inject_Z (100 - 100))) with (Q2Qc 0).
    field. split; assumption.
Qed.

End ExactPlan.

Lemma plan_quantities_nonnegative_witness :
  exists p : feeding_plan Qc,
    s_feeding_plan
      (session_after (tab3 (N := exact) exact_widgets_for_plan)
         (session_with_der (Q2Qc 300)))
    = Some p
    /\ (Q2Qc 0 <= fp_required_dry_grams p)%Qc
    /\ (Q2Qc 0 <= fp_required_wet_grams p)%Qc
    /\ (wet_food_percentage exact_widgets_for_plan = 0%Z ->
        fp_required_wet_grams p = Q2Qc 0)
    /\ (wet_food_percentage exact_widgets_for_plan = 100%Z ->
        fp_required_dry_grams p = Q2Qc 0).
Proof.
  apply (plan_quantities_nonnegative (fun _ _ => Q2Qc 0)
           exact_widgets_for_plan (session_with_der (Q2Qc 300))
           (der := Q2Qc 300)).
  - reflexivity.
  - reflexivity.
  - vm_compute. intros H. discriminate H.
  - split; intros H; discriminate H.
  - vm_compute. reflexivity.
  - vm_compute. reflexivity.
Defined.

(** ** After a recomputation *)

Section Histories.

Context {A : Type} {N : Number A}.

Local Open Scope Z_scope.

Lemma rest_of_main_keeps (P : session_state A -> Prop)
  (e : environment A) (w : widgets A) :
  (forall s, P s -> P (session_after (tab2 w) s)) ->
  (forall s, P s -> P (session_after (tab3 w) s)) ->
  forall s, P s -> P (session_after (tab2 w;; tab3 w;; tab4 e) s).
Proof.
  intros H2 H3.
  apply kept_by_bind; [exact H2 | intros _].
  apply kept_by_bind; [exact H3 | intros _].
  intros s Hs. now rewrite (proj2 (tab4_outcome e s)).
Qed.

Lemma main_after_tab1 (e : environment A) (w : widgets A)
  (s : session_state A) :
  session_after (main e w) s
  = session_after (tab2 w;; tab3 w;; tab4 e) (session_after (tab1 w) s).
Proof.
  unfold main. now rewrite session_after_bind, tab1_outcome.
Qed.

Lemma tab2_keeps_plan (w : widgets A) (s : session_state A) :
  s_feeding_plan (session_after (tab2 w) s) = s_feeding_plan s.
Proof.
  destruct (tab2_session w s) as [-> | (der & i & _ & _ & ->)]; reflexivity.
Qed.

Lemma tab3_keeps_intake (w : widgets A) (s : session_state A) :
  s_intake_analysis (session_after (tab3 w) s) = s_intake_analysis s.
Proof.
  destruct (tab3_session w s) as [-> | (der & p & _ & ->)]; reflexivity.
Qed.

Lemma tab3_unclicked (w : widgets A) (s : session_state A) :
  generate_plan w = false -> session_after (tab3 w) s = s.
Proof.
  intros Hg. destruct (tab3_idle w s Hg) as [out H].
  unfold session_after. now rewrite H.
Qed.

Lemma tab2_unclicked (w : widgets A) (s : session_state A) :
  analyze_intake w = false -> session_after (tab2 w) s = s.
Proof.
  intros Ha. unfold session_after. now rewrite (tab2_idle w s Ha).
Qed.

Lemma plan_stays_absent (e : environment A) (w : widgets A)
  (s : session_state A) :
  generate_plan w = false -> s_feeding_plan s = None ->
  s_feeding_plan (session_after (main e w) s) = None.
Proof.
  intros Hg Hs. rewrite main_after_tab1.
  apply (rest_of_main_keeps (fun s0 => s_feeding_plan s0 = None)).
  - intros s0 H0. now rewrite tab2_keeps_plan.
  - intros s0 H0. now rewrite (tab3_unclicked w s0 Hg).
  - destruct (tab1_session w s) as [-> | ->]; [exact Hs | reflexivity].
Qed.

Lemma intake_stays_absent (e : environment A) (w : widgets A)
  (s : session_state A) :
  analyze_intake w = false -> s_intake_analysis s = None ->
  s_intake_analysis (session_after (main e w) s) = None.
Proof.
  intros Ha Hs. rewrite main_after_tab1.
  apply (rest_of_main_keeps (fun s0 => s_intake_analysis s0 = None)).
  - intros s0 H0. now rewrite (tab2_unclicked w s0 Ha).
  - intros s0 H0. now rewrite tab3_keeps_intake.
  - destruct (tab1_session w s) as [-> | ->]; [exact Hs | reflexivity].
Qed.

(** X17. After a run that recomputes the DER, the session has no feeding
    plan until a run clicks the plan button again, and no intake analysis
    until a run clicks the analysis button again, however many other runs
    come in between and whatever the session held before. *)
Theorem absent_until_asked_again :
  forall (e : environment A) (w : widgets A)
         (runs : list (environment A * widgets A)) (s : session_state A),
    calc_der w = true -> 0 < age_months_of w ->
    leb (weight w) (of_Z 0) = false ->
    (generate_plan w = false ->
     Forall (fun r => generate_plan (snd r) = false) runs ->
     s_feeding_plan (session_after_runs runs (session_after (main e w) s))
     = None)
    /\ (analyze_intake w = false ->
        Forall (fun r => analyze_intake (snd r) = false) runs ->
        s_intake_analysis
          (session_after_runs runs (session_after (main e w) s))
        = None).
Proof.
  intros e w runs s Hc Hage Hw.
  assert (H1 : session_after (tab1 w) s = session_with_energy w).
  { unfold session_after. now rewrite (tab1_computes w s Hc Hage Hw). }
  split.
  - intros Hg Hruns.
    assert (H0 : s_feeding_plan (session_after (main e w) s) = None).
    { rewrite main_after_tab1, H1.
      apply (rest_of_main_keeps (fun s0 => s_feeding_plan s0 = None)).
      - intros s0 H0. now rewrite tab2_keeps_plan.
      - intros s0 H0. now rewrite (tab3_unclicked w s0 Hg).
      - reflexivity. }
    revert H0. generalize (session_after (main e w) s).
    induction Hruns as [ | [e' w'] runs Hr _ IH]; intros s0 H0.
    + exact H0.
    + cbn [session_after_runs fold_left fst snd]. apply IH.
      now apply plan_stays_absent.
  - intros Ha Hruns.
    assert (H0 : s_intake_analysis (session_after (main e w) s) = None).
    { rewrite main_after_tab1, H1.
      apply (rest_of_main_keeps (fun s0 => s_intake_analysis s0 = None)).
      - intros s0 H0. now rewrite (tab2_unclicked w s0 Ha).
      - intros s0 H0. now rewrite tab3_keeps_intake.
      - reflexivity. }
    revert H0. generalize (session_after (main e w) s).
    induction Hruns as [ | [e' w'] runs Hr _ IH]; intros s0 H0.
    + exact H0.
    + cbn [session_after_runs fold_left fst snd]. apply IH.
      now apply intake_stays_absent.
Qed.

End Histories.

Lemma absent_until_asked_again_witness :
  s_feeding_plan
    (session_after_runs (N := py_float)
       [(environment_with_font float, widgets_for_intake);
        (environment_without_font float,
         click_calc_der (default_widgets (N := py_float)))]
       (session_after
          (main (N := py_float) (environment_with_font float)
             (click_calc_der (default_widgets (N := py_float))))
          (set_feeding_plan
             {| fp_wet_food_percentage := 50;
                fp_required_dry_grams := 37.5%float;
                fp_required_wet_grams := 150%float |}
             (session_with_der 300%float))))
  = None.
Proof.
  apply (proj1 (absent_until_asked_again (N := py_float)
                  (environment_with_font float)
                  (click_calc_der (default_widgets (N := py_float)))
                  [(environment_with_font float, widgets_for_intake);
                   (environment_without_font float,
                    click_calc_der (default_widgets (N := py_float)))]
                  (set_feeding_plan
                     {| fp_wet_food_percentage := 50;
                        fp_required_dry_grams := 37.5%float;
                        fp_required_wet_grams := 150%float |}
                     (session_with_der 300%float))
                  eq_refl eq_refl eq_refl)).
  - reflexivity.
  - repeat constructor.
Defined.
